(** * TestGrid API v1: grid resolution and decoding ([pkg/api/v1/state.go])

    A shallow embedding of the request path of [state.go]:
    [findDashboardTab], [GroupGrid], [Grid], [decodeRLE], [ListHeaders],
    [ListRows] and their HTTP wrappers, followed by the properties the
    specification states about them.

    Conventions.
    - Go [int] and [int32] values are integers of [Z].  The only arithmetic the
      code performs on them is the decrement of a strictly positive [int32]
      counter and the increment of a slice index below the slice length;
      neither can wrap, so no wrap-around appears below.
    - A slice is a [list]; the nil slice and the empty slice are both [[]]
      (Go's [len], [range], [append] and JSON encoding of a repeated field do
      not distinguish them).
    - A run-time panic (index out of range, nil dereference) is an explicit
      result, [Panic], distinct from a returned [error].
    - A [float64] is a binary64 number of the Standard Library's [SpecFloat]
      (precision 53, maximal exponent 1024), with its correctly rounded
      division and multiplication. *)

From Stdlib Require Import ZArith List Lia Bool Ascii.
From Stdlib Require Import Floats.SpecFloat.
From stdpp Require Import gmap strings list.
From Equations Require Import Equations.

Local Open Scope string_scope.
Local Open Scope list_scope.
Local Open Scope Z_scope.

(** ** The Go run time: panics and slice indexing *)

Module Go.

Inductive panic : Type :=
| IndexOutOfRange (index length : Z)
| NilDereference.

Inductive outcome (A : Type) : Type :=
| Ret (a : A)
| Panic (p : panic).
Arguments Ret {A} a.
Arguments Panic {A} p.

Definition bind {A B} (m : outcome A) (k : A -> outcome B) : outcome B :=
  match m with
  | Ret a => k a
  | Panic p => Panic p
  end.

(** [len(s)] *)
Definition len {A} (s : list A) : Z := Z.of_nat (length s).

(** [s[i]]: panics unless [0 <= i < len(s)]. *)
Definition index {A} (s : list A) (i : Z) : outcome A :=
  if (0 <=? i) && (i <? len s) then
    match s !! Z.to_nat i with
    | Some x => Ret x
    | None => Panic (IndexOutOfRange i (len s))
    end
  else Panic (IndexOutOfRange i (len s)).

(** [for _, x := range xs { ys = append(ys, f(x)) }], where [f(x)] may
    panic. *)
Fixpoint forRange {A B} (f : A -> outcome B) (xs : list A) (ys : list B)
  : outcome (list B) :=
  match xs with
  | [] => Ret ys
  | x :: xs' => bind (f x) (fun y => forRange f xs' (ys ++ [y]))
  end.

End Go.

Import Go.

Notation "'do' x <- m ; k" := (Go.bind m (fun x => k))
  (at level 10, x name, m at level 100, k at level 200,
   format "'[v' 'do'  x  <-  m ; '/' k ']'").

(** ** The Go run time: [float64] *)

Module Float64.

Definition prec : Z := 53.
Definition emax : Z := 1024.

(** The [float64] of an integer constant (exact below 2^53 in magnitude). *)
Definition ofInt (n : Z) : spec_float := binary_normalize prec emax n 0 false.

(** [x / y] and [x * y] *)
Definition Div : spec_float -> spec_float -> spec_float := SFdiv prec emax.
Definition Mul : spec_float -> spec_float -> spec_float := SFmul prec emax.

(** [math.Mod(x, y)]: the remainder of [x / y], exact, smaller than [y] in
    magnitude and with the sign of [x]; NaN when [x] is infinite or [y] is
    zero, [x] when [y] is infinite. *)
Definition Mod (x y : spec_float) : spec_float :=
  match x, y with
  | S754_nan, _ | _, S754_nan => S754_nan
  | S754_infinity _, _ => S754_nan
  | _, S754_zero _ => S754_nan
  | S754_zero _, _ => x
  | _, S754_infinity _ => x
  | S754_finite sx mx ex, S754_finite _ my ey =>
      let e := Z.min ex ey in
      let r := (Zpos mx * 2 ^ (ex - e)) mod (Zpos my * 2 ^ (ey - e)) in
      binary_normalize prec emax (cond_Zopp sx r) e sx
  end.

(** The integer part of a finite number, the fraction discarded. *)
Definition trunc (x : spec_float) : option Z :=
  match x with
  | S754_zero _ => Some 0
  | S754_finite s m e =>
      Some (cond_Zopp s (if 0 <=? e then Zpos m * 2 ^ e else Zpos m / 2 ^ (- e)))
  | _ => None
  end.

(** [int64(x)] and [int32(x)]: truncation toward zero.  When the integer
    part does not fit, or [x] is not finite, the result is
    implementation-dependent; the smallest integer of the type is what amd64
    gives. *)
Definition toInt (bits : Z) (x : spec_float) : Z :=
  match trunc x with
  | Some z =>
      if (- 2 ^ (bits - 1) <=? z) && (z <? 2 ^ (bits - 1)) then z
      else - 2 ^ (bits - 1)
  | None => - 2 ^ (bits - 1)
  end.

Definition int64 : spec_float -> Z := toInt 64.
Definition int32 : spec_float -> Z := toInt 32.

End Float64.

(** ** Codec: [decodeRLE] *)

(** The inner loop of [decodeRLE],
    [for cellRepeatCount := ...; cellRepeatCount > 0; cellRepeatCount--],
    entered with the current value of the counter; each turn reads
    [encodedData[encodedDataIdx]] and appends it. *)
Equations? decodeRLE_repeat (encodedData : list Z) (encodedDataIdx : Z)
    (cellRepeatCount : Z) (decodedResult : list Z)
  : outcome (list Z) by wf (Z.to_nat cellRepeatCount) lt :=
  decodeRLE_repeat encodedData encodedDataIdx cellRepeatCount decodedResult
    with Z_gt_dec cellRepeatCount 0 := {
    | left _ with index encodedData encodedDataIdx := {
        | Ret v =>
            decodeRLE_repeat encodedData encodedDataIdx (cellRepeatCount - 1)
              (decodedResult ++ [v])
        | Panic p => Panic p }
    | right _ => Ret decodedResult }.
Proof. lia. Qed.

(** The outer loop,
    [for encodedDataIdx := 0; encodedDataIdx < encodedDataLength; encodedDataIdx += 2],
    entered with the current index; the inner loop's counter starts at
    [encodedData[encodedDataIdx+1]]. *)
Equations? decodeRLE_pairs (encodedData : list Z) (encodedDataIdx : Z)
    (decodedResult : list Z)
  : outcome (list Z) by wf (Z.to_nat (len encodedData - encodedDataIdx)) lt :=
  decodeRLE_pairs encodedData encodedDataIdx decodedResult
    with Z_lt_dec encodedDataIdx (len encodedData) := {
    | left _ with index encodedData (encodedDataIdx + 1) := {
        | Ret cellRepeatCount
            with decodeRLE_repeat encodedData encodedDataIdx cellRepeatCount
                   decodedResult := {
            | Ret decodedResult' =>
                decodeRLE_pairs encodedData (encodedDataIdx + 2) decodedResult'
            | Panic p => Panic p }
        | Panic p => Panic p }
    | right _ => Ret decodedResult }.
Proof. lia. Qed.

(** [func decodeRLE(encodedData []int32) []int32] *)
Definition decodeRLE (encodedData : list Z) : outcome (list Z) :=
  let decodedResult := [] in
  let encodedDataLength := len encodedData in
  if Z.rem encodedDataLength 2 =? 0
  then decodeRLE_pairs encodedData 0 decodedResult
  else Ret decodedResult.

(** *** The specification's reading of the encoding *)

(** The input seen as a sequence of (value, runLength) pairs. *)
Fixpoint rlePairs (encoded : list Z) : list (Z * Z) :=
  match encoded with
  | value :: runLength :: rest => (value, runLength) :: rlePairs rest
  | _ => []
  end.

(** A value repeated its run length; a run length that is not positive
    repeats it no times. *)
Definition run (p : Z * Z) : list Z := replicate (Z.to_nat (snd p)) (fst p).

(** The concatenation, in pair order, of each value repeated its run length. *)
Definition expandRuns (encoded : list Z) : list Z :=
  flat_map run (rlePairs encoded).

(** The sum of the run-length terms. *)
Definition sumRunLengths (encoded : list Z) : Z :=
  fold_right Z.add 0 (map snd (rlePairs encoded)).

(** The same sum with every negative term counted as zero. *)
Definition sumClampedRunLengths (encoded : list Z) : Z :=
  fold_right Z.add 0 (map (fun p => Z.max (snd p) 0) (rlePairs encoded)).

Definition noNegativeRun (encoded : list Z) : Prop :=
  Forall (fun p => 0 <= snd p) (rlePairs encoded).

(** A value repeated max(runLength, 0) times, and the concatenation of
    these over the pairs. *)
Definition runClamped (p : Z * Z) : list Z :=
  replicate (Z.to_nat (Z.max (snd p) 0)) (fst p).

Definition expandClamped (encoded : list Z) : list Z :=
  flat_map runClamped (rlePairs encoded).

(** The result tells the caller that the input was malformed: no input of
    even length decodes to the same result. *)
Definition signalsMalformed (encodedData : list Z) : Prop :=
  forall wellFormed : list Z,
    Z.rem (len wellFormed) 2 = 0 ->
    decodeRLE wellFormed <> decodeRLE encodedData.

(** ** Errors

    One constructor for each place where [state.go] builds an [error]; an
    error handed over by a collaborator is [External]. *)

Inductive error : Type :=
| External (message : string)
| EmptyConfig                               (* errors.New("empty config") *)
| DashboardNotFound (dashboardKey : string) (* "Dashboard {%q} not found" *)
| TabNotFound (tabKey : string)             (* "Tab {%q} not found" *)
| TestGroupNotFound                         (* "Test group not found" *)
| Resolve (err : error)                     (* "resolve: %v" *)
| Load (err : error)                        (* "load: %w" *)
| TabStatePathFailed (err : error)          (* "tab state path: %v" *)
| DashboardOrTabNotFound (dashboard tab : string)
                                   (* "Dashboard {%q} or tab {%q} not found" *)
| GridNotFound.                             (* errors.New("grid not found") *)

(** What a handler writes: [http.Error(w, err.Error(), code)] or
    [s.writeJSON(w, &resp)]. *)
Inductive written (A : Type) : Type :=
| httpError (err : error) (code : Z)
| writeJSON (resp : A).
Arguments httpError {A} err code.
Arguments writeJSON {A} resp.

Definition StatusNotFound : Z := 404.

(** ** Collaborators outside [state.go]

    Packages [config], [gcs], [tabulator], [path] and the methods of [Server]
    defined in other files are parameters of the development. *)

Class Collaborators : Type := {
  (** [gcs.Path], [gcs.ConditionalClient], [statepb.AlertInfo] *)
  gcsPath : Type;
  gcsClient : Type;
  AlertInfo : Type;
  (** [config.Normalize] *)
  Normalize : string -> string;
  (** [path.Join] of two elements *)
  pathJoin : string -> string -> string;
  (** [configPath.ResolveReference(&url.URL{Path: p})] on a [gcs.Path] *)
  ResolveReference : gcsPath -> string -> gcsPath + error;
  (** [tabulator.TabStatePath(configPath, tabPrefix, dashboardName, tabName)] *)
  TabStatePath : gcsPath -> string -> string -> string -> gcsPath + error
}.

Section Service.

Context {ext : Collaborators}.

(** *** Configuration snapshot *)

(** Modelled from the spec: [configpb.DashboardTab], of which the code reads
    [Name] and [TestGroupName] (each tab carries its name and its backing
    test-group name). *)
Record configpb_DashboardTab : Type := {
  Tab_Name : string;
  Tab_TestGroupName : string
}.

(** Modelled from the spec: [configpb.Dashboard], the ordered list of tabs
    of a dashboard. *)
Record configpb_Dashboard : Type := {
  Dashboard_DashboardTab : list configpb_DashboardTab
}.

(** Modelled from the spec: [snapshot.Config], the map from a dashboard's
    canonical name to the dashboard.  The map holds pointers: a name with no
    entry yields the nil pointer. *)
Record snapshot_Config : Type := {
  Dashboards : gmap string configpb_Dashboard
}.

(** Modelled from the spec: [cachedConfig], the snapshot with its two
    normalized indexes.  [Config] is a pointer and may be nil; the
    read-write mutex is not modelled. *)
Record cachedConfig : Type := {
  Config : option snapshot_Config;
  NormalDashboard : gmap string string;
  NormalDashboardTab : gmap string (gmap string string)
}.

(** *** Grid state *)

(** Modelled from the spec: [statepb.Column].  [Started] is a [float64]
    number of milliseconds since the epoch. *)
Record statepb_Column : Type := {
  Column_Name : string;
  Column_Build : string;
  Column_Started : spec_float;
  Column_Extra : list string;
  Column_HotlistIds : string
}.

(** Modelled from the spec: [statepb.Row]. *)
Record statepb_Row : Type := {
  Row_Name : string;
  Row_Results : list Z;
  Row_CellIds : list string;
  Row_Messages : list string;
  Row_Icons : list string;
  Row_Issues : list string;
  Row_AlertInfo : option AlertInfo
}.

(** Modelled from the spec: [statepb.Grid]. *)
Record statepb_Grid : Type := {
  Columns : list statepb_Column;
  Rows : list statepb_Row
}.

(** *** Requests and responses ([pb/api/v1/data.proto]) *)

(** [ListHeadersRequest] and [ListRowsRequest] have the same three fields. *)
Record Request : Type := {
  Scope : string;
  Dashboard : string;
  Tab : string
}.

Record Timestamp : Type := {
  Seconds : Z;
  Nanos : Z
}.

Record ListHeadersResponse_Header : Type := {
  Header_Name : string;
  Header_Build : string;
  Header_Started : Timestamp;
  Header_Extra : list string;
  Header_HotlistIds : string
}.

Record ListHeadersResponse : Type := {
  Headers : list ListHeadersResponse_Header
}.

Record ListRowsResponse_Cell : Type := {
  Cell_Result : Z;
  Cell_CellId : string;
  Cell_Message : string;
  Cell_Icon : string
}.

Record ListRowsResponse_Row : Type := {
  ResponseRow_Name : string;
  ResponseRow_Issues : list string;
  ResponseRow_Alert : option AlertInfo;
  ResponseRow_Cells : list ListRowsResponse_Cell
}.

Record ListRowsResponse : Type := {
  ResponseRows : list ListRowsResponse_Row
}.

(** *** The server *)

(** Modelled from the spec: the fields of [Server] that [state.go] reads
    (the request timeout is not modelled), and the methods and functions it
    calls on them that live in other files. *)
Record Server : Type := {
  Client : gcsClient;
  GridPathPrefix : string;
  TabPathPrefix : string;
  (** [s.configPath(scope)] *)
  configPath : string -> gcsPath + error;
  (** [s.getConfig(ctx, log, scope)]: a pointer, possibly nil, and an error *)
  getConfig : string -> option cachedConfig * option error;
  (** [gcs.DownloadGrid(ctx, s.Client, path)]: what the store answers for a
      path at the time of the request, a pointer, possibly nil, and an
      error *)
  DownloadGrid : gcsClient -> gcsPath -> option statepb_Grid * option error
}.

(** *** [findDashboardTab] *)

(** [m[k1][k2]] with the comma-ok form: indexing a missing (nil) inner map
    finds nothing. *)
Definition lookup2 (m : gmap string (gmap string string)) (k1 k2 : string)
  : option string :=
  match m !! k1 with
  | Some inner => inner !! k2
  | None => None
  end.

(** The loop [for _, tab := range ... { if tab.Name == tabName { return ... } }]
    and the [return] that follows it. *)
Fixpoint findDashboardTab_range (tabs : list configpb_DashboardTab)
    (dashboardName tabName : string)
  : string * string * string * option error :=
  match tabs with
  | [] => (dashboardName, tabName, "", Some TestGroupNotFound)
  | tab :: tabs' =>
      if String.eqb (Tab_Name tab) tabName
      then (dashboardName, tabName, Tab_TestGroupName tab, None)
      else findDashboardTab_range tabs' dashboardName tabName
  end.

Definition findDashboardTab (cfg : option cachedConfig)
    (dashboardInput tabInput : string)
  : outcome (string * string * string * option error) :=
  match cfg with
  | None => Ret ("", "", "", Some EmptyConfig)
  | Some cfg =>
  match Config cfg with
  | None => Ret ("", "", "", Some EmptyConfig)
  | Some cfg_Config =>
    let dashboardKey := Normalize dashboardInput in
    let tabKey := Normalize tabInput in
    match NormalDashboard cfg !! dashboardKey with
    | None => Ret ("", "", "", Some (DashboardNotFound dashboardKey))
    | Some dashboardName =>
    match lookup2 (NormalDashboardTab cfg) dashboardKey tabKey with
    | None => Ret (dashboardName, "", "", Some (TabNotFound tabKey))
    | Some tabName =>
    match Dashboards cfg_Config !! dashboardName with
    | None => Panic NilDereference
    | Some d =>
        Ret (findDashboardTab_range (Dashboard_DashboardTab d)
               dashboardName tabName)
    end end end end end.

(** *** [GroupGrid] and [Grid] *)

Definition GroupGrid (s : Server) (configPath : gcsPath) (groupName : string)
  : option statepb_Grid * option error :=
  match ResolveReference configPath (pathJoin (GridPathPrefix s) groupName) with
  | inr err => (None, Some (Resolve err))
  | inl groupPath =>
      let '(grid, err) := DownloadGrid s (Client s) groupPath in
      match err with
      | Some err => (None, Some (Load err))
      | None => (grid, err)
      end
  end.

Definition Grid (s : Server) (scope dashboardName tabName testGroupNanme : string)
  : option statepb_Grid * option error :=
  match configPath s scope with
  | inr err => (None, Some err)
  | inl configPath =>
      if String.eqb (TabPathPrefix s) ""
      then GroupGrid s configPath testGroupNanme
      else
        match TabStatePath configPath (TabPathPrefix s) dashboardName tabName with
        | inr err => (None, Some (TabStatePathFailed err))
        | inl path => DownloadGrid s (Client s) path
        end
  end.

(** *** [ListHeaders] *)

(** The body of the loop over [grid.Columns]. *)
Definition ListHeaders_header (gColumn : statepb_Column)
  : ListHeadersResponse_Header :=
  let millis := Column_Started gColumn in
  let sec := Float64.Div millis (Float64.ofInt 1000) in
  let nanos :=
    Float64.Mul (Float64.Mod millis (Float64.ofInt 1000))
      (Float64.ofInt 1000000) in
  {| Header_Name := Column_Name gColumn;
     Header_Build := Column_Build gColumn;
     Header_Started := {| Seconds := Float64.int64 sec;
                          Nanos := Float64.int32 nanos |};
     Header_Extra := Column_Extra gColumn;
     Header_HotlistIds := Column_HotlistIds gColumn |}.

Definition ListHeaders (s : Server) (req : Request)
  : outcome (ListHeadersResponse + error) :=
  let '(cfg, err) := getConfig s (Scope req) in
  match err with
  | Some err => Ret (inr err)
  | None =>
  match cfg with
  | None => Panic NilDereference      (* cfg.Mutex.RLock() *)
  | Some _ =>
  do found <- findDashboardTab cfg (Dashboard req) (Tab req);
  let '(dashboardName, tabName, testGroupName, err) := found in
  match err with
  | Some err => Ret (inr err)
  | None =>
  let '(grid, err) := Grid s (Scope req) dashboardName tabName testGroupName in
  match err with
  | Some _ => Ret (inr (DashboardOrTabNotFound (Dashboard req) (Tab req)))
  | None =>
  match grid with
  | None => Ret (inr GridNotFound)
  | Some grid =>
      Ret (inl {| Headers := map ListHeaders_header (Columns grid) |})
  end end end end end.

(** *** [ListRows] *)

(** The loop [for cellIdx := 0; cellIdx < cellsCount; cellIdx++], entered
    with the current index.  The four fields of the cell are read in the
    order of the composite literal. *)
Equations? ListRows_cells (gRow : statepb_Row) (gRowDecodedResults : list Z)
    (cellsCount cellIdx : Z) (row_Cells : list ListRowsResponse_Cell)
  : outcome (list ListRowsResponse_Cell)
  by wf (Z.to_nat (cellsCount - cellIdx)) lt :=
  ListRows_cells gRow gRowDecodedResults cellsCount cellIdx row_Cells
    with Z_lt_dec cellIdx cellsCount := {
    | left _ =>
        do r <- index gRowDecodedResults cellIdx;
        do c <- index (Row_CellIds gRow) cellIdx;
        do m <- index (Row_Messages gRow) cellIdx;
        do i <- index (Row_Icons gRow) cellIdx;
        let cell := {| Cell_Result := r; Cell_CellId := c;
                       Cell_Message := m; Cell_Icon := i |} in
        ListRows_cells gRow gRowDecodedResults cellsCount (cellIdx + 1)
          (row_Cells ++ [cell])
    | right _ => Ret row_Cells }.
Proof. lia. Qed.

(** The body of the loop over [grid.Rows]. *)
Definition ListRows_row (gRow : statepb_Row) : outcome ListRowsResponse_Row :=
  let cellsCount := len (Row_CellIds gRow) in
  do gRowDecodedResults <- decodeRLE (Row_Results gRow);
  do row_Cells <- ListRows_cells gRow gRowDecodedResults cellsCount 0 [];
  Ret {| ResponseRow_Name := Row_Name gRow;
         ResponseRow_Issues := Row_Issues gRow;
         ResponseRow_Alert := Row_AlertInfo gRow;
         ResponseRow_Cells := row_Cells |}.

Definition ListRows (s : Server) (req : Request)
  : outcome (ListRowsResponse + error) :=
  let '(cfg, err) := getConfig s (Scope req) in
  match err with
  | Some err => Ret (inr err)
  | None =>
  match cfg with
  | None => Panic NilDereference      (* cfg.Mutex.RLock() *)
  | Some _ =>
  do found <- findDashboardTab cfg (Dashboard req) (Tab req);
  let '(dashboardName, tabName, testGroupName, err) := found in
  match err with
  | Some err => Ret (inr err)
  | None =>
  let '(grid, err) := Grid s (Scope req) dashboardName tabName testGroupName in
  match err with
  | Some _ => Ret (inr (DashboardOrTabNotFound (Dashboard req) (Tab req)))
  | None =>
  match grid with
  | None => Ret (inr GridNotFound)
  | Some grid =>
      do rows <- forRange ListRows_row (Rows grid) [];
      Ret (inl {| ResponseRows := rows |})
  end end end end end.

(** *** HTTP handlers *)

(** The request is built from the [scope] query parameter and the
    [dashboard] and [tab] path variables. *)
Definition ListHeadersHTTP (s : Server) (scopeParam dashboard tab : string)
  : outcome (written ListHeadersResponse) :=
  let req := {| Scope := scopeParam; Dashboard := dashboard; Tab := tab |} in
  do answer <- ListHeaders s req;
  match answer with
  | inr err => Ret (httpError err StatusNotFound)
  | inl resp => Ret (writeJSON resp)
  end.

Definition ListRowsHTTP (s : Server) (scopeParam dashboard tab : string)
  : outcome (written ListRowsResponse) :=
  let req := {| Scope := scopeParam; Dashboard := dashboard; Tab := tab |} in
  do answer <- ListRows s req;
  match answer with
  | inr err => Ret (httpError err StatusNotFound)
  | inl resp => Ret (writeJSON resp)
  end.

(** *** The specification's reading of the service *)

(** Test-group-path resolution: the base location joined with
    [groupPathPrefix/testGroupName]. *)
Definition resolveTestGroupPath (baseLocation : gcsPath)
    (groupPathPrefix testGroupName : string) : gcsPath + error :=
  ResolveReference baseLocation (pathJoin groupPathPrefix testGroupName).

(** Tab-path resolution: the tab-specific layout under the base location. *)
Definition resolveTabPath (baseLocation : gcsPath)
    (tabPathPrefix dashboardName tabName : string) : gcsPath + error :=
  TabStatePath baseLocation tabPathPrefix dashboardName tabName.

(** Identity resolution succeeds for the request: the configuration is there
    and [findDashboardTab] returns the three names and no error. *)
Definition resolves (s : Server) (req : Request)
    (dashboardName tabName testGroupName : string) : Prop :=
  exists cfg : cachedConfig,
    getConfig s (Scope req) = (Some cfg, None)
    /\ findDashboardTab (Some cfg) (Dashboard req) (Tab req)
       = Ret (dashboardName, tabName, testGroupName, None).


(** The decoded result sequence of a row ([decodeRLE] never panics). *)
Definition decoded (gRow : statepb_Row) : list Z :=
  match decodeRLE (Row_Results gRow) with
  | Ret results => results
  | Panic _ => []
  end.

(** The alignment invariant of a row:
    [len(decode(results)) == len(cellIds) == len(messages) == len(icons)]. *)
Definition aligned (gRow : statepb_Row) : Prop :=
  length (decoded gRow) = length (Row_CellIds gRow)
  /\ length (Row_CellIds gRow) = length (Row_Messages gRow)
  /\ length (Row_Messages gRow) = length (Row_Icons gRow).

(** What [ListRows] relies on instead: no sequence is shorter than
    [cellIds]. *)
Definition coversCellIds (gRow : statepb_Row) : Prop :=
  (length (Row_CellIds gRow) <= length (decoded gRow))%nat
  /\ (length (Row_CellIds gRow) <= length (Row_Messages gRow))%nat
  /\ (length (Row_CellIds gRow) <= length (Row_Icons gRow))%nat.

(** The positional zip of four sequences, as long as the shortest. *)
Fixpoint zipCells (results : list Z) (cellIds messages icons : list string)
  : list ListRowsResponse_Cell :=
  match results, cellIds, messages, icons with
  | r :: results', c :: cellIds', m :: messages', i :: icons' =>
      {| Cell_Result := r; Cell_CellId := c; Cell_Message := m; Cell_Icon := i |}
      :: zipCells results' cellIds' messages' icons'
  | _, _, _, _ => []
  end.

(** The row record of a grid row. *)
Definition rowRecord (gRow : statepb_Row) : ListRowsResponse_Row :=
  {| ResponseRow_Name := Row_Name gRow;
     ResponseRow_Issues := Row_Issues gRow;
     ResponseRow_Alert := Row_AlertInfo gRow;
     ResponseRow_Cells :=
       zipCells (decoded gRow) (Row_CellIds gRow) (Row_Messages gRow)
         (Row_Icons gRow) |}.

End Service.

(** ** An in-memory deployment

    Concrete collaborators, a configuration snapshot and a few grids, on
    which the handlers can be run. *)

Module Fixture.

Definition isSpace (c : ascii) : bool :=
  match c with
  | " "%char | "009"%char | "010"%char | "013"%char => true
  | _ => false
  end.

Definition toLower (c : ascii) : ascii :=
  let n := nat_of_ascii c in
  if (65 <=? n)%nat && (n <=? 90)%nat then ascii_of_nat (n + 32) else c.

(** [started]: a character was already written; [pending]: white space was
    skipped since then. *)
Fixpoint squeeze (started pending : bool) (s : string) : string :=
  match s with
  | EmptyString => EmptyString
  | String c s' =>
      if isSpace c then squeeze started true s'
      else
        let rest := String (toLower c) (squeeze true false s') in
        if started && pending then String " "%char rest else rest
  end.

(** Modelled from the spec: [config.Normalize], which lives in package
    [config]; the spec's rule is to case-fold and to trim and collapse white
    space. *)
Definition normalize (s : string) : string := squeeze false false s.

Definition collaborators : Collaborators := {|
  gcsPath := string;
  gcsClient := unit;
  AlertInfo := string;
  Normalize := normalize;
  pathJoin := fun a b => String.append a (String.append "/" b);
  ResolveReference := fun base ref => inl (String.append base (String.append "/" ref));
  TabStatePath := fun base tabPrefix dashboardName tabName =>
    inl (String.append base (String.append "/" (String.append tabPrefix
          (String.append "/" (String.append dashboardName
            (String.append "/" tabName))))))
|}.

#[local] Existing Instance collaborators.

Definition myDash : configpb_Dashboard := {|
  Dashboard_DashboardTab :=
    [ {| Tab_Name := "Tab1"; Tab_TestGroupName := "group-1" |};
      {| Tab_Name := "Tab2"; Tab_TestGroupName := "group-2" |} ]
|}.

(** The tab index also lists a tab, [Ghost], that the dashboard no longer
    has. *)
Definition snapshot : cachedConfig := {|
  Config := Some {| Dashboards := {[ "My Dash" := myDash ]} |};
  NormalDashboard := {[ "my dash" := "My Dash" ]};
  NormalDashboardTab :=
    {[ "my dash" := <[ "tab1" := "Tab1" ]> (<[ "tab2" := "Tab2" ]>
                      {[ "ghost" := "Ghost" ]}) ]}
|}.

Definition column1 : statepb_Column := {|
  Column_Name := "c1"; Column_Build := "b1";
  Column_Started := Float64.ofInt 1500;
  Column_Extra := []; Column_HotlistIds := ""
|}.

(** Started a second and a half before the epoch. *)
Definition columnBeforeEpoch : statepb_Column := {|
  Column_Name := "c0"; Column_Build := "b0";
  Column_Started := Float64.ofInt (-1500);
  Column_Extra := []; Column_HotlistIds := ""
|}.

(** Results [[1, 2]] decode to [[1, 1]]: two cells, two ids. *)
Definition alignedRow : statepb_Row := {|
  Row_Name := "test-a"; Row_Results := [1; 2];
  Row_CellIds := ["a"; "b"]; Row_Messages := ["m1"; "m2"];
  Row_Icons := ["i1"; "i2"]; Row_Issues := ["123"]; Row_AlertInfo := None
|}.

(** Results [[1, 3]] decode to three cells, for a single cell id. *)
Definition longResultsRow : statepb_Row := {|
  Row_Name := "test-b"; Row_Results := [1; 3];
  Row_CellIds := ["a"]; Row_Messages := ["m1"];
  Row_Icons := ["i1"]; Row_Issues := []; Row_AlertInfo := None
|}.

(** Results [[1, 1]] decode to one cell, for two cell ids. *)
Definition shortResultsRow : statepb_Row := {|
  Row_Name := "test-c"; Row_Results := [1; 1];
  Row_CellIds := ["a"; "b"]; Row_Messages := ["m1"; "m2"];
  Row_Icons := ["i1"; "i2"]; Row_Issues := []; Row_AlertInfo := None
|}.

Definition alignedGrid : statepb_Grid :=
  {| Columns := [column1]; Rows := [alignedRow] |}.

Definition beforeEpochGrid : statepb_Grid :=
  {| Columns := [columnBeforeEpoch]; Rows := [] |}.

Definition shortResultsGrid : statepb_Grid :=
  {| Columns := [column1]; Rows := [alignedRow; shortResultsRow] |}.

Definition longResultsGrid : statepb_Grid :=
  {| Columns := [column1]; Rows := [longResultsRow] |}.

(** A store that answers every path with the same grid and remembers
    nothing. *)
Definition always (answer : option statepb_Grid * option error)
  : gcsClient -> gcsPath -> option statepb_Grid * option error :=
  fun _ _ => answer.

(** A store with one object. *)
Definition only (at_ : string) (grid : statepb_Grid)
  : gcsClient -> gcsPath -> option statepb_Grid * option error :=
  fun _ path => if String.eqb path at_ then (Some grid, None) else (None, None).

Definition server (tabPathPrefix : string)
    (store : gcsClient -> gcsPath -> option statepb_Grid * option error)
  : Server := {|
  Client := tt;
  GridPathPrefix := "grid";
  TabPathPrefix := tabPathPrefix;
  configPath := fun scope => inl (String.append "gs://" scope);
  getConfig := fun _ => (Some snapshot, None);
  DownloadGrid := store
|}.

Definition request : Request :=
  {| Scope := "bucket"; Dashboard := "  my   dash  "; Tab := "TAB1" |}.

(** A dashboard that has the tab name [Tab1] twice, behind another tab. *)
Definition twinDash : configpb_Dashboard := {|
  Dashboard_DashboardTab :=
    [ {| Tab_Name := "Tab2"; Tab_TestGroupName := "group-2" |};
      {| Tab_Name := "Tab1"; Tab_TestGroupName := "group-1" |};
      {| Tab_Name := "Tab1"; Tab_TestGroupName := "group-9" |} ]
|}.

Definition twinSnapshot : cachedConfig := {|
  Config := Some {| Dashboards := {[ "My Dash" := twinDash ]} |};
  NormalDashboard := {[ "my dash" := "My Dash" ]};
  NormalDashboardTab := {[ "my dash" := {[ "tab1" := "Tab1" ]} ]}
|}.

(** A cached configuration whose [Config] pointer is nil. *)
Definition hollowSnapshot : cachedConfig := {|
  Config := None;
  NormalDashboard := {[ "my dash" := "My Dash" ]};
  NormalDashboardTab := {[ "my dash" := {[ "tab1" := "Tab1" ]} ]}
|}.

(** A cached configuration whose indexes list a dashboard that the map of
    dashboards does not hold. *)
Definition orphanSnapshot : cachedConfig := {|
  Config := Some {| Dashboards := empty |};
  NormalDashboard := {[ "my dash" := "My Dash" ]};
  NormalDashboardTab := {[ "my dash" := {[ "tab1" := "Tab1" ]} ]}
|}.

(** The server of [server] with a chosen answer of [getConfig]. *)
Definition serverWith (answer : option cachedConfig * option error)
    (tabPathPrefix : string)
    (store : gcsClient -> gcsPath -> option statepb_Grid * option error)
  : Server := {|
  Client := tt;
  GridPathPrefix := "grid";
  TabPathPrefix := tabPathPrefix;
  configPath := fun scope => inl (String.append "gs://" scope);
  getConfig := fun _ => answer;
  DownloadGrid := store
|}.

(** A server whose base location cannot be determined. *)
Definition lostServer : Server := {|
  Client := tt;
  GridPathPrefix := "grid";
  TabPathPrefix := "tabs";
  configPath := fun _ => inr (External "no default config path");
  getConfig := fun _ => (Some snapshot, None);
  DownloadGrid := always (Some alignedGrid, None)
|}.

End Fixture.

(** ** Auxiliary definitions for the [float64] arithmetic *)

(** The second half of [binary_round_aux]: the rounded mantissa is brought
    back to 53 digits and packed. *)
Definition finish (s : bool) (m1 e1 : Z) : spec_float :=
  let '(mrs, e) := shr_fexp 53 1024 m1 e1 loc_Exact in
  match shr_m mrs with
  | 0 => S754_zero s
  | Zpos m => if e <=? 1024 - 53 then S754_finite s m e else S754_infinity s
  | Zneg _ => S754_nan
  end.

(** The nanoseconds computed from a remainder [R] of sign [s], and the check
    that they are [R * 1e6], for the table of all remainders. *)
Definition nanosOf (s : bool) (R : Z) : option Z :=
  Float64.trunc
    (Float64.Mul (binary_normalize 53 1024 (cond_Zopp s R) 0 s)
       (Float64.ofInt 1000000)).

Definition nanosOk (R : Z) : bool :=
  match nanosOf false R, nanosOf true R with
  | Some n, Some n' => (n =? R * 1000000) && (n' =? - (R * 1000000))
  | _, _ => false
  end.

(** [P] holds of every integer from 0 up to [n], [n] excluded. *)
Fixpoint allBelow (P : Z -> bool) (n : nat) : bool :=
  match n with
  | O => true
  | S k => P (Z.of_nat k) && allBelow P k
  end.

(** ** Auxiliary definitions for the further properties *)

(** The encoding that gives every value a run of its own, of length one. *)
Definition unitRuns (values : list Z) : list Z :=
  flat_map (fun value => [value; 1]) values.

(** * Properties

    ** Codec *)

Section CodecProofs.

Lemma len_nonneg {A} (s : list A) : 0 <= len s.
Proof. unfold len. lia. Qed.

Lemma len_app {A} (s t : list A) : len (s ++ t) = len s + len t.
Proof. unfold len. rewrite length_app. lia. Qed.

Lemma index_lookup {A} (s : list A) (i : Z) (x : A) :
  0 <= i -> s !! Z.to_nat i = Some x -> index s i = Ret x.
Proof.
  intros Hi H. unfold index, len.
  pose proof (lookup_lt_Some _ _ _ H).
  rewrite H.
  destruct (0 <=? i) eqn:E1; [|lia].
  destruct (i <? Z.of_nat (length s)) eqn:E2; [|lia].
  reflexivity.
Qed.

Lemma index_out_of_range {A} (s : list A) (i : Z) :
  len s <= i -> index s i = Panic (IndexOutOfRange i (len s)).
Proof.
  intros Hi. unfold index.
  destruct (i <? len s) eqn:E; [lia|]. now rewrite andb_false_r.
Qed.

Lemma decodeRLE_repeat_spec (encodedData : list Z) (i : Z) (v : Z) :
  0 <= i -> encodedData !! Z.to_nat i = Some v ->
  forall (n : nat) (c : Z) (acc : list Z),
    Z.to_nat c = n ->
    decodeRLE_repeat encodedData i c acc = Ret (acc ++ replicate n v).
Proof.
  intros Hi Hv n. induction n as [|n IH]; intros c acc Hc.
  - simp decodeRLE_repeat. destruct (Z_gt_dec c 0); [lia|]. simpl.
    now rewrite app_nil_r.
  - simp decodeRLE_repeat. destruct (Z_gt_dec c 0); [|lia]. simpl.
    rewrite (index_lookup _ _ _ Hi Hv). simpl.
    rewrite IH by lia. rewrite <- app_assoc. reflexivity.
Qed.

Lemma decodeRLE_pairs_spec (n : nat) :
  forall (rest pre acc : list Z),
    length rest = (2 * n)%nat ->
    decodeRLE_pairs (pre ++ rest) (len pre) acc = Ret (acc ++ expandRuns rest).
Proof.
  induction n as [|n IH]; intros rest pre acc Hn.
  - destruct rest; [|simpl in Hn; lia].
    simp decodeRLE_pairs.
    destruct (Z_lt_dec (len pre) (len (pre ++ []))) as [Hlt|Hge]; simpl.
    + exfalso. rewrite app_nil_r in Hlt. lia.
    + unfold expandRuns. simpl. now rewrite app_nil_r.
  - destruct rest as [|v [|r rest]]; simpl in Hn; try lia.
    pose proof (len_nonneg pre) as Hpre.
    simp decodeRLE_pairs.
    destruct (Z_lt_dec (len pre) (len (pre ++ v :: r :: rest))) as [Hlt|Hge]; simpl.
    2:{ exfalso. apply Hge. rewrite len_app. unfold len. simpl. lia. }
    rewrite (index_lookup _ _ r); [|lia|].
    2:{ unfold len. rewrite lookup_app_r by lia.
        now replace (Z.to_nat (Z.of_nat (length pre) + 1) - length pre)%nat with 1%nat by lia. }
    simpl.
    rewrite (decodeRLE_repeat_spec _ _ v) with (n := Z.to_nat r); [|lia| |reflexivity].
    2:{ unfold len. rewrite Nat2Z.id, lookup_app_r by lia. now rewrite Nat.sub_diag. }
    simpl.
    replace (len pre + 2) with (len (pre ++ [v; r])) by (rewrite len_app; unfold len; simpl; lia).
    replace (pre ++ v :: r :: rest) with ((pre ++ [v; r]) ++ rest) by now rewrite <- app_assoc.
    rewrite IH by lia.
    unfold expandRuns. simpl. now rewrite <- app_assoc.
Qed.

Lemma even_length (encoded : list Z) :
  Z.rem (len encoded) 2 = 0 -> exists n : nat, length encoded = (2 * n)%nat.
Proof.
  intros H. rewrite Z.rem_mod_nonneg in H by (pose proof (len_nonneg encoded); lia).
  exists (Z.to_nat (len encoded / 2)).
  pose proof (Z.div_mod (len encoded) 2 ltac:(lia)).
  pose proof (len_nonneg encoded).
  apply Nat2Z.inj. fold (len encoded).
  rewrite Nat2Z.inj_mul, Z2Nat.id by (apply Z.div_pos; lia). lia.
Qed.

Lemma decodeRLE_expandRuns (encodedData : list Z) :
  Z.rem (len encodedData) 2 = 0 ->
  decodeRLE encodedData = Ret (expandRuns encodedData).
Proof.
  intros H. unfold decodeRLE. cbv zeta. rewrite H. simpl.
  destruct (even_length _ H) as [n Hn].
  apply (decodeRLE_pairs_spec n encodedData [] [] Hn).
Qed.

Lemma decodeRLE_odd_length (encodedData : list Z) :
  Z.rem (len encodedData) 2 <> 0 -> decodeRLE encodedData = Ret [].
Proof.
  intros H. unfold decodeRLE. cbv zeta.
  destruct (Z.rem (len encodedData) 2 =? 0) eqn:E; [lia|reflexivity].
Qed.

Lemma rlePairs_app (pre post : list Z) (n : nat) :
  length pre = (2 * n)%nat -> rlePairs (pre ++ post) = rlePairs pre ++ rlePairs post.
Proof.
  revert pre. induction n as [|n IH]; intros [|v [|r pre]] H; simpl in *; try lia.
  - reflexivity.
  - f_equal. apply IH. lia.
Qed.

Lemma expandRuns_app (pre post : list Z) :
  Z.rem (len pre) 2 = 0 ->
  expandRuns (pre ++ post) = expandRuns pre ++ expandRuns post.
Proof.
  intros H. destruct (even_length _ H) as [n Hn]. unfold expandRuns.
  rewrite (rlePairs_app _ _ n Hn). apply flat_map_app.
Qed.

Lemma run_clamped (p : Z * Z) : runClamped p = run p.
Proof. unfold runClamped, run. f_equal. lia. Qed.

Lemma expandClamped_expandRuns (encoded : list Z) :
  expandClamped encoded = expandRuns encoded.
Proof.
  unfold expandClamped, expandRuns.
  induction (rlePairs encoded) as [|p ps IH]; simpl; [reflexivity|].
  now rewrite run_clamped, IH.
Qed.

Lemma len_expandRuns (encoded : list Z) :
  len (expandRuns encoded) = sumClampedRunLengths encoded.
Proof.
  unfold expandRuns, sumClampedRunLengths.
  induction (rlePairs encoded) as [|[v r] ps IH]; simpl; [reflexivity|].
  rewrite len_app, IH. unfold run, len. rewrite length_replicate. simpl. lia.
Qed.

Lemma sumClamped_noNegative (encoded : list Z) :
  noNegativeRun encoded -> sumClampedRunLengths encoded = sumRunLengths encoded.
Proof.
  unfold noNegativeRun, sumClampedRunLengths, sumRunLengths.
  induction 1 as [|[v r] ps Hr _ IH]; simpl in *; [reflexivity|].
  rewrite IH. lia.
Qed.

(** C1 (as amended).  On every input of even length [decodeRLE] returns the
    concatenation, in pair order, of each value repeated its run length, a
    run length that is not positive repeating it no times.  The length of the
    output is the sum of the run lengths with every negative one counted as
    zero, hence the sum of the run lengths when none is negative; a pair whose
    run length is zero contributes no element; and
    [decodeRLE [0,3,5,4] = [0,0,0,5,5,5,5]]. *)
Theorem decodeRLE_even_length (encodedData : list Z) :
  Z.rem (len encodedData) 2 = 0 ->
  decodeRLE encodedData = Ret (expandRuns encodedData)
  /\ len (expandRuns encodedData) = sumClampedRunLengths encodedData
  /\ (noNegativeRun encodedData ->
      len (expandRuns encodedData) = sumRunLengths encodedData)
  /\ (forall (pre post : list Z) (value : Z),
        encodedData = pre ++ value :: 0 :: post ->
        Z.rem (len pre) 2 = 0 ->
        expandRuns encodedData = expandRuns pre ++ expandRuns post)
  /\ decodeRLE [0; 3; 5; 4] = Ret [0; 0; 0; 5; 5; 5; 5].
Proof.
  intros Heven. split; [|split; [|split; [|split]]].
  - now apply decodeRLE_expandRuns.
  - apply len_expandRuns.
  - intros Hpos. rewrite len_expandRuns. now apply sumClamped_noNegative.
  - intros pre post value -> Hpre. now rewrite expandRuns_app.
  - vm_compute. reflexivity.
Qed.

(** C1, the claim as stated, fails: [[7, -1]] has even length and decodes to
    nothing, so the output has length 0 while the run lengths sum to -1. *)
Lemma decodeRLE_negative_run_length_sum :
  Z.rem (len [7; -1]) 2 = 0
  /\ decodeRLE [7; -1] = Ret []
  /\ len (@nil Z) <> sumRunLengths [7; -1].
Proof. vm_compute. repeat split; congruence. Qed.

(** C8 (as amended).  On every input of odd length [decodeRLE] returns the
    empty slice and nothing else: no prefix is decoded, no element is
    returned, and no error or panic is raised.  The empty slice is also what
    the empty input decodes to, so the result alone does not tell a malformed
    input from a well-formed one. *)
Theorem decodeRLE_odd_length_empty (encodedData : list Z) :
  Z.rem (len encodedData) 2 <> 0 ->
  decodeRLE encodedData = Ret []
  /\ decodeRLE encodedData = decodeRLE []
  /\ ~ signalsMalformed encodedData.
Proof.
  intros Hodd. pose proof (decodeRLE_odd_length _ Hodd) as H.
  split; [exact H|]. split; [now rewrite H|].
  intros Hsig. apply (Hsig []); [reflexivity|]. now rewrite H.
Qed.

(** C8, the claim as stated, fails: the odd-length input [[7]] is not
    signalled, its result is the result of the well-formed input [[]]. *)
Lemma decodeRLE_odd_length_not_signalled :
  Z.rem (len [7]) 2 <> 0
  /\ Z.rem (len (@nil Z)) 2 = 0
  /\ decodeRLE [7] = decodeRLE []
  /\ ~ signalsMalformed [7].
Proof.
  split; [vm_compute; congruence|]. split; [reflexivity|].
  split; [reflexivity|].
  intros Hsig. now apply (Hsig []).
Qed.

Lemma even_rem (n : Z) : Z.even n = true -> Z.rem n 2 = 0.
Proof.
  intros E. apply Zeven_bool_iff, Zeven_ex_iff in E. destruct E as [k Hk].
  rewrite Hk, Z.mul_comm. apply Z.rem_mul. lia.
Qed.

Lemma decodeRLE_returns (encodedData : list Z) :
  decodeRLE encodedData
    = Ret (if Z.even (len encodedData) then expandRuns encodedData else []).
Proof.
  destruct (Z.even (len encodedData)) eqn:E.
  - apply decodeRLE_expandRuns. now apply even_rem.
  - apply decodeRLE_odd_length. intros H.
    destruct (even_length _ H) as [n Hn].
    unfold len in E. rewrite Hn, Nat2Z.inj_mul, Z.even_mul in E. discriminate.
Qed.

(** C10.  [decodeRLE] is total: on every input, whatever its length and
    values, it returns a slice and does not panic.  On an input of even
    length the slice is the concatenation over the pairs of the value
    repeated max(runLength, 0) times (on an input of odd length it is empty),
    so a pair with a negative run length contributes no element. *)
Theorem decodeRLE_total (encodedData : list Z) :
  decodeRLE encodedData
    = Ret (if Z.even (len encodedData) then expandClamped encodedData else [])
  /\ (forall (pre post : list Z) (value runLength : Z),
        encodedData = pre ++ value :: runLength :: post ->
        Z.even (len pre) = true ->
        runLength < 0 ->
        expandClamped encodedData = expandClamped pre ++ expandClamped post).
Proof.
  split.
  - rewrite expandClamped_expandRuns. apply decodeRLE_returns.
  - intros pre post value runLength -> Hpre Hneg.
    rewrite !expandClamped_expandRuns.
    rewrite expandRuns_app by now apply even_rem. f_equal.
    unfold expandRuns. simpl. unfold run at 1. simpl.
    now replace (Z.to_nat runLength) with 0%nat by lia.
Qed.

End CodecProofs.

(** ** [float64] arithmetic on whole milliseconds *)

Section Float64Proofs.

Lemma digits2_size p : digits2_pos p = Pos.size p.
Proof. induction p; simpl; congruence. Qed.

Lemma Zdigits2_log2 p : Zdigits2 (Zpos p) = Z.log2 (Zpos p) + 1.
Proof.
  unfold Zdigits2. rewrite digits2_size.
  destruct p; simpl; rewrite ?Pos2Z.inj_succ; lia.
Qed.

Lemma Zdigits2_unique (m d : Z) :
  0 < d -> 2 ^ (d - 1) <= m < 2 ^ d -> Zdigits2 m = d.
Proof.
  intros Hd H.
  assert (0 < m) by (pose proof (Z.pow_pos_nonneg 2 (d - 1) ltac:(lia) ltac:(lia)); lia).
  destruct m as [|p|p]; try lia.
  rewrite Zdigits2_log2.
  rewrite (Z.log2_unique (Zpos p) (d - 1)); [lia|lia|].
  replace (Z.succ (d - 1)) with d by lia. exact H.
Qed.

Lemma Zdigits2_bounds (p : positive) :
  2 ^ (Zdigits2 (Zpos p) - 1) <= Zpos p < 2 ^ Zdigits2 (Zpos p).
Proof.
  rewrite Zdigits2_log2.
  pose proof (Z.log2_spec (Zpos p) ltac:(lia)).
  replace (Z.log2 (Zpos p) + 1 - 1) with (Z.log2 (Zpos p)) by lia.
  replace (Z.log2 (Zpos p) + 1) with (Z.succ (Z.log2 (Zpos p))) by lia. lia.
Qed.

Lemma iter_xO (p n : positive) : Zpos (Pos.iter xO p n) = Zpos p * 2 ^ Zpos n.
Proof.
  rewrite <- Z.shiftl_mul_pow2 by lia. unfold Z.shiftl.
  apply (Pos.iter_swap_gen _ _ Zpos xO (Z.mul 2)). reflexivity.
Qed.

(** The canonical binary64 form of a positive integer below 2^53. *)
Lemma binary_normalize_pos (m : positive) (e : Z) (sz : bool) (s : bool) :
  Zdigits2 (Zpos m) <= 53 -> -1000 <= e <= 900 ->
  binary_normalize 53 1024 (cond_Zopp s (Zpos m)) e sz
  = S754_finite s (Z.to_pos (Zpos m * 2 ^ (53 - Zdigits2 (Zpos m))))
      (e - (53 - Zdigits2 (Zpos m))).
Proof.
  set (d := Zdigits2 (Zpos m)). intros Hd He.
  pose proof (Zdigits2_bounds m) as Hb. fold d in Hb.
  assert (0 < d) as Hd0 by (unfold d, Zdigits2; lia).
  assert (binary_round 53 1024 s m e
          = S754_finite s (Z.to_pos (Zpos m * 2 ^ (53 - d))) (e - (53 - d))) as H.
  { unfold binary_round.
    change (Zpos (digits2_pos m)) with d.
    assert (fexp 53 1024 (d + e) = d + e - 53) as Hf by (unfold fexp, emin; lia).
    rewrite Hf. unfold shl_align.
    replace (d + e - 53 - e) with (d - 53) by lia.
    assert (forall mz ez, Zdigits2 (Zpos mz) = 53 -> -1060 <= ez <= 900 ->
              binary_round_aux 53 1024 s (Zpos mz) ez loc_Exact = S754_finite s mz ez) as Haux.
    { intros mz ez Hmz Hez. unfold binary_round_aux, shr_fexp.
      assert (fexp 53 1024 (53 + ez) - ez = 0) as Hz by (unfold fexp, emin; lia).
      rewrite Hmz, Hz.
      cbn [shr shr_record_of_loc shr_m round_nearest_even loc_of_shr_record].
      rewrite Hmz, Hz.
      cbn [shr shr_record_of_loc shr_m].
      destruct (ez <=? 1024 - 53) eqn:E; [reflexivity|lia]. }
    destruct (d - 53) as [|p|p] eqn:Edp; try lia.
    - replace (53 - d) with 0 by lia. rewrite Z.mul_1_r. simpl Z.to_pos.
      replace (e - 0) with e by lia.
      apply Haux; [subst d; lia|lia].
    - assert (53 - d = Zpos p) as -> by lia.
      rewrite <- iter_xO. simpl Z.to_pos.
      replace (d + e - 53) with (e - Zpos p) by lia.
      apply Haux; [|lia].
      apply Zdigits2_unique; [lia|]. rewrite iter_xO.
      replace (53 - 1) with ((d - 1) + Zpos p) by lia.
      replace (2 ^ 53) with (2 ^ (d + Zpos p)) by (f_equal; lia).
      rewrite (Z.pow_add_r 2 (d - 1) (Zpos p)), (Z.pow_add_r 2 d (Zpos p)) by lia.
      pose proof (Z.pow_pos_nonneg 2 (Zpos p) ltac:(lia) ltac:(lia)). nia. }
  destruct s; simpl; exact H.
Qed.

Lemma binary_round_aux_finish (s : bool) (mx ex : Z) (lx : location) :
  binary_round_aux 53 1024 s mx ex lx
  = let '(mrs, e) := shr_fexp 53 1024 mx ex lx in
    finish s (round_nearest_even (shr_m mrs) (loc_of_shr_record mrs)) e.
Proof. reflexivity. Qed.

Lemma trunc_finish (s : bool) (m1 e1 : Z) :
  2 ^ 52 <= m1 <= 2 ^ 53 -> -80 <= e1 <= -2 ->
  Float64.trunc (finish s m1 e1) = Some (cond_Zopp s (m1 / 2 ^ (- e1))).
Proof.
  intros Hm He. unfold finish, shr_fexp.
  destruct (Z_lt_dec m1 (2 ^ 53)) as [Hlt|Hge].
  - rewrite (Zdigits2_unique m1 53) by lia.
    assert (fexp 53 1024 (53 + e1) - e1 = 0) as -> by (unfold fexp, emin; lia).
    cbn [shr shr_record_of_loc shr_m].
    destruct m1 as [|p|p]; try lia.
    destruct (e1 <=? 1024 - 53) eqn:E; [|lia].
    cbn [Float64.trunc]. destruct (0 <=? e1) eqn:E0; [lia|]. reflexivity.
  - assert (m1 = 2 ^ 53) as -> by lia.
    rewrite (Zdigits2_unique (2 ^ 53) 54) by lia.
    assert (fexp 53 1024 (54 + e1) - e1 = 1) as -> by (unfold fexp, emin; lia).
    cbn [shr shr_record_of_loc shr_m SpecFloat.iter_pos].
    change (shr_1 {| shr_m := 2 ^ 53; shr_r := false; shr_s := false |})
      with {| shr_m := 4503599627370496; shr_r := false; shr_s := false |}.
    cbn [shr_m]. cbv iota.
    destruct (e1 + 1 <=? 1024 - 53) eqn:E; [|lia].
    cbn [Float64.trunc]. destruct (0 <=? e1 + 1) eqn:E0; [lia|].
    f_equal. f_equal.
    replace (- e1) with (1 + (- (e1 + 1))) by lia.
    rewrite Z.pow_add_r by lia.
    change (2 ^ 53) with (2 * 4503599627370496). change (2 ^ 1) with 2.
    rewrite Z.div_mul_cancel_l; [reflexivity| |lia].
    pose proof (Z.pow_pos_nonneg 2 (- (e1 + 1)) ltac:(lia) ltac:(lia)). lia.
Qed.

Lemma shr_1_spec (m : Z) (r s : bool) :
  0 <= m ->
  shr_1 {| shr_m := m; shr_r := r; shr_s := s |}
  = {| shr_m := m / 2; shr_r := Z.odd m; shr_s := r || s |}.
Proof.
  intros Hm. destruct m as [|[p|p|]|p]; try lia; cbn [shr_1]; f_equal.
  - rewrite Pos2Z.inj_xI. apply (Z.div_unique _ _ _ 1); lia.
  - rewrite Pos2Z.inj_xO. apply (Z.div_unique _ _ _ 0); lia.
Qed.

Lemma loc_of_record_of_loc (m : Z) (l : location) :
  loc_of_shr_record (shr_record_of_loc m l) = l.
Proof. destruct l as [|[| |]]; reflexivity. Qed.

Lemma shr_m_record_of_loc (m : Z) (l : location) :
  shr_m (shr_record_of_loc m l) = m.
Proof. destruct l as [|[| |]]; reflexivity. Qed.

Lemma round_nearest_even_bounds (m : Z) (l : location) :
  m <= round_nearest_even m l <= m + 1.
Proof. destruct l as [|[| |]]; simpl; try lia. destruct (Z.even m); lia. Qed.

(** Rounding up needs the round bit. *)
Lemma round_nearest_even_up (m : Z) (r s : bool) :
  round_nearest_even m
    (loc_of_shr_record {| shr_m := m; shr_r := r; shr_s := s |}) <> m ->
  r = true.
Proof. destruct r, s; simpl; congruence. Qed.

Lemma Div_1000 (s : bool) (M : positive) :
  Zpos M < 2 ^ 53 ->
  Float64.trunc (Float64.Div (Float64.ofInt (cond_Zopp s (Zpos M)))
                   (Float64.ofInt 1000))
  = Some (cond_Zopp s (Zpos M / 1000)).
Proof.
  intros HM.
  change (Float64.ofInt (cond_Zopp s (Zpos M)))
    with (binary_normalize 53 1024 (cond_Zopp s (Zpos M)) 0 false).
  pose proof (Zdigits2_bounds M) as Hb.
  set (d := Zdigits2 (Zpos M)) in *.
  assert (0 < d) as Hd0 by (unfold d, Zdigits2; lia).
  assert (d <= 53) as Hd.
  { destruct (Z_le_gt_dec d 53) as [|Hgt]; [assumption|exfalso].
    assert (2 ^ 53 <= 2 ^ (d - 1)) by (apply Z.pow_le_mono_r; lia). lia. }
  rewrite (binary_normalize_pos M 0 false s) by (fold d; lia).
  fold d. set (j := 53 - d).
  assert (0 <= j <= 52) as Hj by (unfold j; lia).
  pose proof (Z.pow_pos_nonneg 2 j ltac:(lia) ltac:(lia)) as Hpj.
  assert (2 ^ 52 <= Zpos M * 2 ^ j < 2 ^ 53) as Hmx.
  { replace 52 with ((d - 1) + j) by (unfold j; lia).
    replace (2 ^ 53) with (2 ^ (d + j)) by (f_equal; unfold j; lia).
    rewrite !Z.pow_add_r by lia. nia. }
  change (Float64.ofInt 1000) with (S754_finite false 8796093022208000 (-43)).
  change Float64.Div with (SFdiv 53 1024).
  unfold SFdiv, SFdiv_core_binary.
  rewrite Z2Pos.id by lia.
  rewrite (Zdigits2_unique (Zpos M * 2 ^ j) 53) by lia.
  change (Zdigits2 (Zpos 8796093022208000)) with 53.
  assert (IntDef.Z.min (fexp 53 1024 (53 + (0 - j) - (53 + -43))) (0 - j - -43)
          = - (j + 10)) as -> by (unfold fexp, emin; lia).
  replace (0 - j - -43 - - (j + 10)) with 53 by lia.
  cbv iota.
  change (IntDef.Z.shiftl (Zpos M * 2 ^ j) 53) with (Z.shiftl (Zpos M * 2 ^ j) 53).
  rewrite Z.shiftl_mul_pow2 by lia.
  change (IntDef.Z.div_eucl) with Z.div_eucl.
  set (T := 2 ^ (j + 10)).
  assert (Zpos M * 2 ^ j * 2 ^ 53 = (Zpos M * T) * 2 ^ 43) as ->.
  { unfold T. rewrite Z.pow_add_r by lia. change (2 ^ 53) with (2 ^ 10 * 2 ^ 43). ring. }
  change 8796093022208000 with (1000 * 2 ^ 43).
  destruct (Z.div_eucl (Zpos M * T * 2 ^ 43) (1000 * 2 ^ 43)) as [q r] eqn:Eqr.
  assert (q = (Zpos M * T) / 1000) as Hq.
  { rewrite <- (Z.div_mul_cancel_r (Zpos M * T) 1000 (2 ^ 43)) by lia.
    unfold Z.div. now rewrite Eqr. }
  clear Eqr.
  assert (T = 2 ^ j * 1024) as HT by (unfold T; now rewrite Z.pow_add_r by lia).
  set (K := Zpos M / 1000). set (R := Zpos M mod 1000).
  pose proof (Z.div_mod (Zpos M) 1000 ltac:(lia)) as HKR. fold K R in HKR.
  pose proof (Z.mod_pos_bound (Zpos M) 1000 ltac:(lia)) as HR. fold R in HR.
  assert (0 <= K) as HK0 by (apply Z.div_pos; lia).
  set (w := (R * T) / 1000).
  assert (q = K * T + w) as Hq'.
  { rewrite Hq, HKR. unfold w.
    replace ((1000 * K + R) * T) with (K * T * 1000 + R * T) by ring.
    now rewrite Z.div_add_l by lia. }
  assert (0 <= w <= T - 2) as Hw.
  { assert (0 <= R * T <= 999 * T) by nia.
    pose proof (Z.div_mod (R * T) 1000 ltac:(lia)) as Hdm. fold w in Hdm.
    pose proof (Z.mod_pos_bound (R * T) 1000 ltac:(lia)). lia. }
  assert (2 ^ 52 <= q < 2 ^ 54) as Hqb.
  { assert (2 ^ 62 <= Zpos M * T < 2 ^ 63) as HX
      by (rewrite HT; change (2 ^ 62) with (2 ^ 52 * 1024);
          change (2 ^ 63) with (2 ^ 53 * 1024); lia).
    rewrite Hq.
    pose proof (Z.div_mod (Zpos M * T) 1000 ltac:(lia)).
    pose proof (Z.mod_pos_bound (Zpos M * T) 1000 ltac:(lia)).
    change (2 ^ 62) with 4611686018427387904 in HX.
    change (2 ^ 63) with 9223372036854775808 in HX.
    change (2 ^ 52) with 4503599627370496.
    change (2 ^ 54) with 18014398509481984. lia. }
  rewrite binary_round_aux_finish, xorb_false_r. unfold shr_fexp.
  set (l := new_location (1000 * 2 ^ 43) r).
  destruct (Z_lt_dec q (2 ^ 53)) as [Hlt|Hge].
  - rewrite (Zdigits2_unique q 53) by lia.
    assert (fexp 53 1024 (53 + - (j + 10)) - - (j + 10) = 0) as ->
      by (unfold fexp, emin; lia).
    cbn [shr]. rewrite shr_m_record_of_loc, loc_of_record_of_loc.
    pose proof (round_nearest_even_bounds q l) as Hm1.
    rewrite trunc_finish by lia.
    do 2 f_equal. replace (- - (j + 10)) with (j + 10) by lia. fold T.
    symmetry. apply (Z.div_unique _ _ _ (round_nearest_even q l - K * T)); lia.
  - rewrite (Zdigits2_unique q 54) by lia.
    assert (fexp 53 1024 (54 + - (j + 10)) - - (j + 10) = 1) as ->
      by (unfold fexp, emin; lia).
    cbn [shr SpecFloat.iter_pos].
    assert (exists rb sb, shr_record_of_loc q l
                          = {| shr_m := q; shr_r := rb; shr_s := sb |})
      as (rb & sb & ->) by (destruct l as [|[| |]]; simpl; eauto).
    rewrite shr_1_spec by lia. cbn [shr_m].
    set (m1 := round_nearest_even (q / 2) _).
    assert (q / 2 <= m1 <= q / 2 + 1) as Hm1 by apply round_nearest_even_bounds.
    assert (m1 <> q / 2 -> Z.odd q = true) as Hup
      by (intros Hne; now apply round_nearest_even_up in Hne).
    set (T' := 2 ^ (j + 9)).
    assert (T = 2 * T') as HT'
      by (unfold T, T'; replace (j + 10) with (1 + (j + 9)) by lia;
          now rewrite Z.pow_add_r by lia).
    assert (512 <= T') as HT512 by lia.
    assert (K * T' <= m1 < K * T' + T') as Hrange.
    { destruct (Z.eq_dec m1 (q / 2)) as [->|Hne].
      - pose proof (Z.div_mod q 2 ltac:(lia)).
        pose proof (Z.mod_pos_bound q 2 ltac:(lia)). nia.
      - specialize (Hup Hne).
        pose proof (Z.div_mod q 2 ltac:(lia)) as Hdm.
        pose proof (Zmod_odd q) as Hodd. rewrite Hup in Hodd. nia. }
    assert (2 ^ 52 <= m1 <= 2 ^ 53) as Hm1b.
    { pose proof (Z.div_mod q 2 ltac:(lia)).
      pose proof (Z.mod_pos_bound q 2 ltac:(lia)).
      change (2 ^ 52) with 4503599627370496. change (2 ^ 53) with 9007199254740992.
      change (2 ^ 53) with 9007199254740992 in Hge.
      change (2 ^ 54) with 18014398509481984 in Hqb. clearbody m1. lia. }
    assert (-80 <= - (j + 10) + 1 <= -2) as He1 by lia.
    rewrite (trunc_finish s m1 (- (j + 10) + 1) Hm1b He1).
    do 2 f_equal. replace (- (- (j + 10) + 1)) with (j + 9) by lia. fold T'.
    symmetry. apply (Z.div_unique _ _ _ (m1 - K * T')); lia.
Qed.

Lemma Zdigits2_mul_pow2 (m : positive) (n : Z) :
  0 <= n -> Zdigits2 (Zpos m * 2 ^ n) = Zdigits2 (Zpos m) + n.
Proof.
  intros Hn. pose proof (Zdigits2_bounds m) as Hb.
  assert (0 < Zdigits2 (Zpos m)) as Hd0 by (unfold Zdigits2; lia).
  pose proof (Z.pow_pos_nonneg 2 n ltac:(lia) ltac:(lia)).
  apply Zdigits2_unique; [lia|].
  replace (Zdigits2 (Zpos m) + n - 1) with ((Zdigits2 (Zpos m) - 1) + n) by lia.
  rewrite !Z.pow_add_r by lia. nia.
Qed.

(** The canonical form does not depend on how the value is split between
    mantissa and exponent. *)
Lemma binary_normalize_shift (s : bool) (R n : Z) :
  0 <= R < 2 ^ 53 -> 0 <= n -> Zdigits2 R + n <= 53 ->
  binary_normalize 53 1024 (cond_Zopp s (R * 2 ^ n)) (- n) s
  = binary_normalize 53 1024 (cond_Zopp s R) 0 s.
Proof.
  intros HR Hn Hd. destruct R as [|p|p]; [now destruct s| |lia].
  pose proof (Z.pow_pos_nonneg 2 n ltac:(lia) ltac:(lia)) as Hpn.
  assert (0 < Zdigits2 (Zpos p)) as Hd0 by (unfold Zdigits2; lia).
  assert (Zdigits2 (Zpos (Z.to_pos (Zpos p * 2 ^ n))) = Zdigits2 (Zpos p) + n) as Hdn
    by (rewrite Z2Pos.id by lia; now apply Zdigits2_mul_pow2).
  rewrite <- (Z2Pos.id (Zpos p * 2 ^ n)) by lia.
  rewrite (binary_normalize_pos (Z.to_pos (Zpos p * 2 ^ n)) (- n) s s)
    by (rewrite ?Hdn; lia).
  rewrite (binary_normalize_pos p 0 s s) by lia.
  rewrite Hdn, Z2Pos.id by lia.
  f_equal; [|lia]. f_equal.
  rewrite <- Z.mul_assoc, <- Z.pow_add_r by lia. f_equal. f_equal. lia.
Qed.

Lemma allBelow_spec (P : Z -> bool) (n : nat) :
  allBelow P n = true -> forall z : Z, 0 <= z < Z.of_nat n -> P z = true.
Proof.
  induction n as [|n IH]; intros H z Hz; [lia|].
  cbn [allBelow] in H. apply andb_true_iff in H. destruct H as [H1 H2].
  destruct (Z.eq_dec z (Z.of_nat n)) as [->|Hne]; [exact H1|].
  apply IH; [exact H2|lia].
Qed.

Lemma nanosTable_ok : allBelow nanosOk 1000 = true.
Proof. vm_compute. reflexivity. Qed.

Lemma nanosOf_spec (s : bool) (R : Z) :
  0 <= R < 1000 -> nanosOf s R = Some (cond_Zopp s (R * 1000000)).
Proof.
  intros HR. pose proof (allBelow_spec _ _ nanosTable_ok R HR) as H.
  unfold nanosOk in H.
  destruct (nanosOf false R) as [n|] eqn:Ef, (nanosOf true R) as [n'|] eqn:Et;
    try discriminate.
  apply andb_true_iff in H. destruct H as [H1 H2].
  apply Z.eqb_eq in H1, H2. subst. now destruct s.
Qed.

Lemma Mod_1000 (s : bool) (M : positive) :
  Zpos M < 2 ^ 53 ->
  Float64.Mod (Float64.ofInt (cond_Zopp s (Zpos M))) (Float64.ofInt 1000)
  = binary_normalize 53 1024 (cond_Zopp s (Zpos M mod 1000)) 0 s.
Proof.
  intros HM.
  change (Float64.ofInt (cond_Zopp s (Zpos M)))
    with (binary_normalize 53 1024 (cond_Zopp s (Zpos M)) 0 false).
  pose proof (Zdigits2_bounds M) as Hb.
  set (d := Zdigits2 (Zpos M)) in *.
  assert (0 < d) as Hd0 by (unfold d, Zdigits2; lia).
  assert (d <= 53) as Hd.
  { destruct (Z_le_gt_dec d 53) as [|Hgt]; [assumption|exfalso].
    assert (2 ^ 53 <= 2 ^ (d - 1)) by (apply Z.pow_le_mono_r; lia). lia. }
  rewrite (binary_normalize_pos M 0 false s) by (fold d; lia).
  fold d. set (j := 53 - d).
  assert (0 <= j <= 52) as Hj by (unfold j; lia).
  pose proof (Z.pow_pos_nonneg 2 j ltac:(lia) ltac:(lia)) as Hpj.
  change (Float64.ofInt 1000) with (S754_finite false 8796093022208000 (-43)).
  cbn [Float64.Mod]. rewrite Z2Pos.id by lia.
  change Float64.prec with 53. change Float64.emax with 1024.
  pose proof (Z.mod_pos_bound (Zpos M) 1000 ltac:(lia)) as HR.
  change 8796093022208000 with (1000 * 2 ^ 43).
  set (e := Z.min (0 - j) (-43)).
  assert ((Zpos M * 2 ^ j * 2 ^ (0 - j - e)) mod (1000 * 2 ^ 43 * 2 ^ (-43 - e))
          = (Zpos M mod 1000) * 2 ^ (- e)) as ->.
  { replace (Zpos M * 2 ^ j * 2 ^ (0 - j - e)) with (Zpos M * 2 ^ (- e)).
    2:{ rewrite <- Z.mul_assoc, <- Z.pow_add_r by lia. f_equal. f_equal. lia. }
    replace (1000 * 2 ^ 43 * 2 ^ (-43 - e)) with (1000 * 2 ^ (- e)).
    2:{ rewrite <- Z.mul_assoc, <- Z.pow_add_r by lia. f_equal. f_equal. lia. }
    apply Z.mul_mod_distr_r; [|lia].
    pose proof (Z.pow_pos_nonneg 2 (- e) ltac:(lia) ltac:(lia)). lia. }
  replace e with (- (- e)) at 2 by lia.
  apply binary_normalize_shift; [change (2 ^ 53) with 9007199254740992; lia|lia|].
  assert (Zdigits2 (Zpos M mod 1000) <= 10 /\ Zdigits2 (Zpos M mod 1000) <= d);
    [|lia].
  pose proof (Z.mod_le (Zpos M) 1000 ltac:(lia) ltac:(lia)) as Hle.
  destruct (Zpos M mod 1000) as [|p|p] eqn:E; [simpl; lia| |lia].
  pose proof (Zdigits2_bounds p) as Hbp. split.
  - destruct (Z_le_gt_dec (Zdigits2 (Zpos p)) 10) as [|Hgt]; [assumption|exfalso].
    assert (2 ^ 10 <= 2 ^ (Zdigits2 (Zpos p) - 1)) by (apply Z.pow_le_mono_r; lia).
    change (2 ^ 10) with 1024 in *. lia.
  - destruct (Z_le_gt_dec (Zdigits2 (Zpos p)) d) as [|Hgt]; [assumption|exfalso].
    assert (2 ^ d <= 2 ^ (Zdigits2 (Zpos p) - 1)) by (apply Z.pow_le_mono_r; lia).
    lia.
Qed.

Lemma Mod_Mul_1000 (s : bool) (M : positive) :
  Zpos M < 2 ^ 53 ->
  Float64.trunc
    (Float64.Mul (Float64.Mod (Float64.ofInt (cond_Zopp s (Zpos M)))
                    (Float64.ofInt 1000))
       (Float64.ofInt 1000000))
  = Some (cond_Zopp s (Zpos M mod 1000 * 1000000)).
Proof.
  intros HM. rewrite Mod_1000 by exact HM.
  apply nanosOf_spec. apply Z.mod_pos_bound. lia.
Qed.

Lemma toInt_in_range (bits : Z) (x : spec_float) (z : Z) :
  Float64.trunc x = Some z ->
  - 2 ^ (bits - 1) <= z < 2 ^ (bits - 1) ->
  Float64.toInt bits x = z.
Proof.
  intros Hx Hz. unfold Float64.toInt. rewrite Hx.
  destruct ((- 2 ^ (bits - 1) <=? z) && (z <? 2 ^ (bits - 1))) eqn:E;
    [reflexivity|].
  apply andb_false_iff in E. destruct E as [E|E]; lia.
Qed.

(** On a whole number of milliseconds below 2^53 in magnitude, the seconds
    are the quotient truncated toward zero and the nanoseconds the remainder
    of that division, with the sign of the milliseconds, times 1e6. *)
Lemma started_whole_milliseconds (millis : Z) :
  - 2 ^ 53 < millis < 2 ^ 53 ->
  Float64.int64 (Float64.Div (Float64.ofInt millis) (Float64.ofInt 1000))
  = Z.quot millis 1000
  /\ Float64.int32
       (Float64.Mul (Float64.Mod (Float64.ofInt millis) (Float64.ofInt 1000))
          (Float64.ofInt 1000000))
     = Z.rem millis 1000 * 1000000.
Proof.
  intros HM. unfold Float64.int64, Float64.int32.
  change (2 ^ 53) with 9007199254740992 in HM.
  destruct millis as [|M|M].
  - split; reflexivity.
  - pose proof (Z.div_mod (Zpos M) 1000 ltac:(lia)).
    pose proof (Z.mod_pos_bound (Zpos M) 1000 ltac:(lia)).
    rewrite Z.quot_div_nonneg, Z.rem_mod_nonneg by lia.
    split; apply toInt_in_range.
    + apply (Div_1000 false M). change (2 ^ 53) with 9007199254740992. lia.
    + change (2 ^ (64 - 1)) with 9223372036854775808. lia.
    + apply (Mod_Mul_1000 false M). change (2 ^ 53) with 9007199254740992. lia.
    + change (2 ^ (32 - 1)) with 2147483648. lia.
  - pose proof (Z.div_mod (Zpos M) 1000 ltac:(lia)).
    pose proof (Z.mod_pos_bound (Zpos M) 1000 ltac:(lia)).
    change (Zneg M) with (- Zpos M) at 2 4.
    rewrite Z.quot_opp_l, Z.rem_opp_l by lia.
    rewrite Z.quot_div_nonneg, Z.rem_mod_nonneg by lia.
    replace (- (Zpos M mod 1000) * 1000000)
      with (- (Zpos M mod 1000 * 1000000)) by lia.
    split; apply toInt_in_range.
    + apply (Div_1000 true M). change (2 ^ 53) with 9007199254740992. lia.
    + change (2 ^ (64 - 1)) with 9223372036854775808. lia.
    + apply (Mod_Mul_1000 true M). change (2 ^ 53) with 9007199254740992. lia.
    + change (2 ^ (32 - 1)) with 2147483648. lia.
Qed.

End Float64Proofs.

(** ** Service *)

Section ServiceProofs.

Context {ext : Collaborators}.

Lemma decodeRLE_decoded (gRow : statepb_Row) :
  decodeRLE (Row_Results gRow) = Ret (decoded gRow).
Proof. unfold decoded. now rewrite decodeRLE_returns. Qed.

Lemma zipCells_nil_cellIds (results : list Z) (messages icons : list string) :
  zipCells results [] messages icons = [].
Proof. now destruct results. Qed.

(** The cell loop, entered at index [k] with [m] turns to go, when no
    sequence runs out before [cellIds] does. *)
Lemma ListRows_cells_covered (gRow : statepb_Row) (results : list Z) (m : nat) :
  forall (k : nat) (row_Cells : list ListRowsResponse_Cell),
    (k + m = length (Row_CellIds gRow))%nat ->
    (length (Row_CellIds gRow) <= length results)%nat ->
    (length (Row_CellIds gRow) <= length (Row_Messages gRow))%nat ->
    (length (Row_CellIds gRow) <= length (Row_Icons gRow))%nat ->
    ListRows_cells gRow results (len (Row_CellIds gRow)) (Z.of_nat k) row_Cells
    = Ret (row_Cells ++
             zipCells (drop k results) (drop k (Row_CellIds gRow))
               (drop k (Row_Messages gRow)) (drop k (Row_Icons gRow))).
Proof.
  induction m as [|m IH]; intros k acc Hk Hr Hm Hi.
  - simp ListRows_cells.
    destruct (Z_lt_dec (Z.of_nat k) (len (Row_CellIds gRow))) as [Hlt|Hge]; simpl.
    + exfalso. unfold len in Hlt. lia.
    + rewrite (drop_ge (Row_CellIds gRow)) by lia.
      now rewrite zipCells_nil_cellIds, app_nil_r.
  - simp ListRows_cells.
    destruct (Z_lt_dec (Z.of_nat k) (len (Row_CellIds gRow))) as [Hlt|Hge]; simpl.
    2:{ exfalso. unfold len in Hge. lia. }
    destruct (lookup_lt_is_Some_2 results k ltac:(lia)) as [r Hrk].
    destruct (lookup_lt_is_Some_2 (Row_CellIds gRow) k ltac:(lia)) as [c Hck].
    destruct (lookup_lt_is_Some_2 (Row_Messages gRow) k ltac:(lia)) as [msg Hmk].
    destruct (lookup_lt_is_Some_2 (Row_Icons gRow) k ltac:(lia)) as [i Hik].
    rewrite (index_lookup results _ r), (index_lookup (Row_CellIds gRow) _ c),
      (index_lookup (Row_Messages gRow) _ msg), (index_lookup (Row_Icons gRow) _ i)
      by (rewrite ?Nat2Z.id; (lia || assumption)).
    simpl.
    replace (Z.of_nat k + 1) with (Z.of_nat (S k)) by lia.
    rewrite IH by lia.
    rewrite (drop_S results r k Hrk), (drop_S _ c k Hck), (drop_S _ msg k Hmk),
      (drop_S _ i k Hik).
    simpl. now rewrite <- app_assoc.
Qed.

(** The cell loop when some sequence runs out at index [j], before [cellIds]
    does: the turn at [j] indexes out of range. *)
Lemma ListRows_cells_short (gRow : statepb_Row) (results : list Z) (m : nat) :
  forall (k : nat) (row_Cells : list ListRowsResponse_Cell),
    let j := Nat.min (length results)
               (Nat.min (length (Row_Messages gRow)) (length (Row_Icons gRow))) in
    (k + m = j)%nat ->
    (j < length (Row_CellIds gRow))%nat ->
    exists p : panic,
      ListRows_cells gRow results (len (Row_CellIds gRow)) (Z.of_nat k) row_Cells
      = Panic p.
Proof.
  induction m as [|m IH]; intros k acc j Hk Hj; subst j.
  - simp ListRows_cells.
    destruct (Z_lt_dec (Z.of_nat k) (len (Row_CellIds gRow))) as [Hlt|Hge]; simpl.
    2:{ exfalso. unfold len in Hge. lia. }
    destruct (le_lt_dec (length results) k) as [Hr|Hr].
    { rewrite (index_out_of_range results) by (unfold len; lia). simpl. eauto. }
    destruct (lookup_lt_is_Some_2 results k Hr) as [r Hrk].
    destruct (lookup_lt_is_Some_2 (Row_CellIds gRow) k ltac:(lia)) as [c Hck].
    rewrite (index_lookup results _ r), (index_lookup (Row_CellIds gRow) _ c)
      by (rewrite ?Nat2Z.id; (lia || assumption)).
    simpl.
    destruct (le_lt_dec (length (Row_Messages gRow)) k) as [Hm|Hm].
    { rewrite (index_out_of_range (Row_Messages gRow)) by (unfold len; lia).
      simpl. eauto. }
    destruct (lookup_lt_is_Some_2 (Row_Messages gRow) k Hm) as [msg Hmk].
    rewrite (index_lookup (Row_Messages gRow) _ msg)
      by (rewrite ?Nat2Z.id; (lia || assumption)).
    simpl.
    rewrite (index_out_of_range (Row_Icons gRow)) by (unfold len; lia).
    simpl. eauto.
  - simp ListRows_cells.
    destruct (Z_lt_dec (Z.of_nat k) (len (Row_CellIds gRow))) as [Hlt|Hge]; simpl.
    2:{ exfalso. unfold len in Hge. lia. }
    destruct (lookup_lt_is_Some_2 results k ltac:(lia)) as [r Hrk].
    destruct (lookup_lt_is_Some_2 (Row_CellIds gRow) k ltac:(lia)) as [c Hck].
    destruct (lookup_lt_is_Some_2 (Row_Messages gRow) k ltac:(lia)) as [msg Hmk].
    destruct (lookup_lt_is_Some_2 (Row_Icons gRow) k ltac:(lia)) as [i Hik].
    rewrite (index_lookup results _ r), (index_lookup (Row_CellIds gRow) _ c),
      (index_lookup (Row_Messages gRow) _ msg), (index_lookup (Row_Icons gRow) _ i)
      by (rewrite ?Nat2Z.id; (lia || assumption)).
    simpl.
    replace (Z.of_nat k + 1) with (Z.of_nat (S k)) by lia.
    apply IH; lia.
Qed.

Lemma ListRows_row_covered (gRow : statepb_Row) :
  coversCellIds gRow -> ListRows_row gRow = Ret (rowRecord gRow).
Proof.
  intros (Hr & Hm & Hi). unfold ListRows_row. cbv zeta.
  rewrite decodeRLE_decoded. simpl.
  pose proof (ListRows_cells_covered gRow (decoded gRow)
                (length (Row_CellIds gRow)) 0 [] ltac:(lia) Hr Hm Hi) as Hloop.
  change (Z.of_nat 0) with 0 in Hloop. rewrite Hloop. reflexivity.
Qed.

Lemma ListRows_row_short (gRow : statepb_Row) :
  ~ coversCellIds gRow -> exists p : panic, ListRows_row gRow = Panic p.
Proof.
  intros Hshort. unfold ListRows_row. cbv zeta.
  rewrite decodeRLE_decoded. simpl.
  destruct (ListRows_cells_short gRow (decoded gRow)
              (Nat.min (length (decoded gRow))
                 (Nat.min (length (Row_Messages gRow)) (length (Row_Icons gRow))))
              0 []) as [p Hp].
  - reflexivity.
  - unfold coversCellIds in Hshort. lia.
  - exists p. change (Z.of_nat 0) with 0 in Hp. now rewrite Hp.
Qed.

Lemma forRange_all {A B} (f : A -> outcome B) (g : A -> B) (xs : list A) :
  Forall (fun x => f x = Ret (g x)) xs ->
  forall ys : list B, forRange f xs ys = Ret (ys ++ map g xs).
Proof.
  induction 1 as [|x xs Hx _ IH]; intros ys; simpl.
  - now rewrite app_nil_r.
  - rewrite Hx. simpl. rewrite IH, <- app_assoc. reflexivity.
Qed.

Lemma forRange_panic {A B} (f : A -> outcome B) (xs : list A) :
  Exists (fun x => exists p, f x = Panic p) xs ->
  forall ys : list B, exists p, forRange f xs ys = Panic p.
Proof.
  induction xs as [|x xs IH]; intros Hex ys.
  - inversion Hex.
  - simpl. destruct (f x) as [y|p] eqn:E; simpl.
    + apply IH. inversion Hex as [? ? [p Hp]|]; subst; [congruence|assumption].
    + eauto.
Qed.

Lemma zipCells_lookup (results : list Z) (cellIds messages icons : list string) :
  forall (i : nat) (r : Z) (c msg ic : string),
    results !! i = Some r -> cellIds !! i = Some c ->
    messages !! i = Some msg -> icons !! i = Some ic ->
    zipCells results cellIds messages icons !! i
    = Some {| Cell_Result := r; Cell_CellId := c;
              Cell_Message := msg; Cell_Icon := ic |}.
Proof.
  revert cellIds messages icons.
  induction results as [|r0 results IH]; intros [|c0 cs] [|m0 ms] [|i0 ics] i r c msg ic;
    try (intros; destruct i; discriminate).
  destruct i as [|i]; simpl.
  - intros [= ->] [= ->] [= ->] [= ->]. reflexivity.
  - apply IH.
Qed.

Lemma zipCells_length (results : list Z) (cellIds messages icons : list string) :
  length (zipCells results cellIds messages icons)
  = Nat.min (Nat.min (length results) (length cellIds))
      (Nat.min (length messages) (length icons)).
Proof.
  revert cellIds messages icons.
  induction results as [|r0 results IH]; intros [|c0 cs] [|m0 ms] [|i0 ics];
    simpl; try lia.
  rewrite IH. lia.
Qed.

Lemma ListRows_resolved (s : Server) (req : Request)
    (dashboardName tabName testGroupName : string) :
  resolves s req dashboardName tabName testGroupName ->
  ListRows s req
  = match Grid s (Scope req) dashboardName tabName testGroupName with
    | (_, Some _) =>
        Ret (inr (DashboardOrTabNotFound (Dashboard req) (Tab req)))
    | (None, None) => Ret (inr GridNotFound)
    | (Some grid, None) =>
        do rows <- forRange ListRows_row (Rows grid) [];
        Ret (inl {| ResponseRows := rows |})
    end.
Proof.
  intros (cfg & Hcfg & Hfound). unfold ListRows.
  rewrite Hcfg, Hfound. simpl.
  destruct (Grid s (Scope req) dashboardName tabName testGroupName)
    as [[grid|] [err|]]; reflexivity.
Qed.

Lemma ListHeaders_resolved (s : Server) (req : Request)
    (dashboardName tabName testGroupName : string) :
  resolves s req dashboardName tabName testGroupName ->
  ListHeaders s req
  = match Grid s (Scope req) dashboardName tabName testGroupName with
    | (_, Some _) =>
        Ret (inr (DashboardOrTabNotFound (Dashboard req) (Tab req)))
    | (None, None) => Ret (inr GridNotFound)
    | (Some grid, None) =>
        Ret (inl {| Headers := map ListHeaders_header (Columns grid) |})
    end.
Proof.
  intros (cfg & Hcfg & Hfound). unfold ListHeaders.
  rewrite Hcfg, Hfound. simpl.
  destruct (Grid s (Scope req) dashboardName tabName testGroupName)
    as [[grid|] [err|]]; reflexivity.
Qed.

Lemma ListRows_covered (s : Server) (req : Request)
    (dashboardName tabName testGroupName : string) (grid : statepb_Grid) :
  resolves s req dashboardName tabName testGroupName ->
  Grid s (Scope req) dashboardName tabName testGroupName = (Some grid, None) ->
  Forall coversCellIds (Rows grid) ->
  ListRows s req = Ret (inl {| ResponseRows := map rowRecord (Rows grid) |}).
Proof.
  intros Hres Hgrid Hrows.
  rewrite (ListRows_resolved _ _ _ _ _ Hres), Hgrid.
  rewrite (forRange_all ListRows_row rowRecord).
  - reflexivity.
  - eapply Forall_impl; [exact Hrows|]. apply ListRows_row_covered.
Qed.

Lemma aligned_covers (gRow : statepb_Row) : aligned gRow -> coversCellIds gRow.
Proof. unfold aligned, coversCellIds. lia. Qed.

Lemma rowRecord_cells_length (gRow : statepb_Row) :
  coversCellIds gRow ->
  length (ResponseRow_Cells (rowRecord gRow)) = length (Row_CellIds gRow).
Proof.
  unfold coversCellIds. intros H. simpl. rewrite zipCells_length. lia.
Qed.

(** C7.  When every row of the grid satisfies the alignment invariant,
    [ListRows] returns one row record per grid row, in grid order, and the
    cells of each are the positional zip: as many cells as cell ids, the
    cell at index [i] holding the [i]-th decoded result, [cellIds[i]],
    [messages[i]] and [icons[i]]. *)
Theorem ListRows_aligned (s : Server) (req : Request)
    (dashboardName tabName testGroupName : string) (grid : statepb_Grid) :
  resolves s req dashboardName tabName testGroupName ->
  Grid s (Scope req) dashboardName tabName testGroupName = (Some grid, None) ->
  Forall aligned (Rows grid) ->
  ListRows s req = Ret (inl {| ResponseRows := map rowRecord (Rows grid) |})
  /\ Forall (fun gRow =>
        ResponseRow_Name (rowRecord gRow) = Row_Name gRow
        /\ length (ResponseRow_Cells (rowRecord gRow))
           = length (Row_CellIds gRow)
        /\ forall (i : nat) (r : Z) (c msg ic : string),
             decoded gRow !! i = Some r ->
             Row_CellIds gRow !! i = Some c ->
             Row_Messages gRow !! i = Some msg ->
             Row_Icons gRow !! i = Some ic ->
             ResponseRow_Cells (rowRecord gRow) !! i
             = Some {| Cell_Result := r; Cell_CellId := c;
                       Cell_Message := msg; Cell_Icon := ic |})
       (Rows grid).
Proof.
  intros Hres Hgrid Hrows. split.
  - apply (ListRows_covered _ _ _ _ _ _ Hres Hgrid).
    eapply Forall_impl; [exact Hrows|]. apply aligned_covers.
  - eapply Forall_impl; [exact Hrows|]. intros gRow Hal.
    split; [reflexivity|]. split.
    + now apply rowRecord_cells_length, aligned_covers.
    + intros. now apply zipCells_lookup.
Qed.

(** The cell loop when some sequence runs out at index [j], before [cellIds]
    does: the panic is that of index [j] on a sequence of length [j]. *)
Lemma ListRows_cells_runs_out (gRow : statepb_Row) (results : list Z) (m : nat) :
  forall (k : nat) (row_Cells : list ListRowsResponse_Cell),
    let j := Nat.min (length results)
               (Nat.min (length (Row_Messages gRow)) (length (Row_Icons gRow))) in
    (k + m = j)%nat ->
    (j < length (Row_CellIds gRow))%nat ->
    ListRows_cells gRow results (len (Row_CellIds gRow)) (Z.of_nat k) row_Cells
    = Panic (IndexOutOfRange (Z.of_nat j) (Z.of_nat j)).
Proof.
  induction m as [|m IH]; intros k acc j Hk Hj; subst j.
  - simp ListRows_cells.
    destruct (Z_lt_dec (Z.of_nat k) (len (Row_CellIds gRow))) as [Hlt|Hge]; simpl.
    2:{ exfalso. unfold len in Hge. lia. }
    rewrite Nat.add_0_r in Hk. rewrite <- Hk.
    destruct (le_lt_dec (length results) k) as [Hr|Hr].
    { rewrite (index_out_of_range results) by (unfold len; lia). simpl.
      unfold len. do 3 f_equal. lia. }
    destruct (lookup_lt_is_Some_2 results k Hr) as [r Hrk].
    destruct (lookup_lt_is_Some_2 (Row_CellIds gRow) k ltac:(lia)) as [c Hck].
    rewrite (index_lookup results _ r), (index_lookup (Row_CellIds gRow) _ c)
      by (rewrite ?Nat2Z.id; (lia || assumption)).
    simpl.
    destruct (le_lt_dec (length (Row_Messages gRow)) k) as [Hm|Hm].
    { rewrite (index_out_of_range (Row_Messages gRow)) by (unfold len; lia).
      simpl. unfold len. do 3 f_equal. lia. }
    destruct (lookup_lt_is_Some_2 (Row_Messages gRow) k Hm) as [msg Hmk].
    rewrite (index_lookup (Row_Messages gRow) _ msg)
      by (rewrite ?Nat2Z.id; (lia || assumption)).
    simpl.
    rewrite (index_out_of_range (Row_Icons gRow)) by (unfold len; lia).
    simpl. unfold len. do 3 f_equal. lia.
  - simp ListRows_cells.
    destruct (Z_lt_dec (Z.of_nat k) (len (Row_CellIds gRow))) as [Hlt|Hge]; simpl.
    2:{ exfalso. unfold len in Hge. lia. }
    destruct (lookup_lt_is_Some_2 results k ltac:(lia)) as [r Hrk].
    destruct (lookup_lt_is_Some_2 (Row_CellIds gRow) k ltac:(lia)) as [c Hck].
    destruct (lookup_lt_is_Some_2 (Row_Messages gRow) k ltac:(lia)) as [msg Hmk].
    destruct (lookup_lt_is_Some_2 (Row_Icons gRow) k ltac:(lia)) as [i Hik].
    rewrite (index_lookup results _ r), (index_lookup (Row_CellIds gRow) _ c),
      (index_lookup (Row_Messages gRow) _ msg), (index_lookup (Row_Icons gRow) _ i)
      by (rewrite ?Nat2Z.id; (lia || assumption)).
    simpl.
    replace (Z.of_nat k + 1) with (Z.of_nat (S k)) by lia.
    apply IH; lia.
Qed.

Lemma forRange_first_panic {A B} (f : A -> outcome B) (g : A -> B)
    (before after : list A) (x : A) (p : panic) :
  Forall (fun x' => f x' = Ret (g x')) before ->
  f x = Panic p ->
  forall ys : list B, forRange f (before ++ x :: after) ys = Panic p.
Proof.
  intros Hbefore Hx. induction Hbefore as [|x' before Hx' _ IH]; intros ys; simpl.
  - now rewrite Hx.
  - rewrite Hx'. simpl. apply IH.
Qed.

Lemma coversCellIds_dec (gRow : statepb_Row) :
  {coversCellIds gRow} + {~ coversCellIds gRow}.
Proof.
  unfold coversCellIds.
  destruct (le_dec (length (Row_CellIds gRow)) (length (decoded gRow)));
    [|right; tauto].
  destruct (le_dec (length (Row_CellIds gRow)) (length (Row_Messages gRow)));
    [|right; tauto].
  destruct (le_dec (length (Row_CellIds gRow)) (length (Row_Icons gRow)));
    [left; tauto|right; tauto].
Qed.

(** The cell loop of a row in which the decoded results, the messages or the
    icons are fewer than the cell ids. *)
Lemma ListRows_row_runs_out (gRow : statepb_Row) :
  ~ coversCellIds gRow ->
  let j := Z.of_nat
             (Nat.min (length (decoded gRow))
                (Nat.min (length (Row_Messages gRow))
                   (length (Row_Icons gRow)))) in
  j < len (Row_CellIds gRow)
  /\ ListRows_row gRow = Panic (IndexOutOfRange j j).
Proof.
  intros Hshort j. subst j.
  assert (Nat.min (length (decoded gRow))
            (Nat.min (length (Row_Messages gRow)) (length (Row_Icons gRow)))
          < length (Row_CellIds gRow))%nat as Hlt
    by (unfold coversCellIds in Hshort; lia).
  split; [unfold len; lia|].
  unfold ListRows_row. cbv zeta. rewrite decodeRLE_decoded. cbn [bind].
  pose proof (ListRows_cells_runs_out gRow (decoded gRow)
                (Nat.min (length (decoded gRow))
                   (Nat.min (length (Row_Messages gRow))
                      (length (Row_Icons gRow))))
                0 [] eq_refl Hlt) as Hloop.
  cbv zeta in Hloop. change (Z.of_nat 0) with 0 in Hloop.
  now rewrite Hloop.
Qed.

(** Among rows of which one is too short for its cell ids, there is a first
    such row. *)
Lemma first_short_row (rows : list statepb_Row) :
  Exists (fun gRow => ~ coversCellIds gRow) rows ->
  exists (before after : list statepb_Row) (gRow : statepb_Row),
    rows = before ++ gRow :: after
    /\ Forall coversCellIds before
    /\ ~ coversCellIds gRow.
Proof.
  induction rows as [|gRow rows IH]; intros Hshort.
  - inversion Hshort.
  - destruct (coversCellIds_dec gRow) as [Hcov|Hnot].
    + destruct IH as (before & after & gRow' & -> & Hbefore & Hnot).
      { inversion Hshort as [? ? Hhd|]; [contradiction|assumption]. }
      exists (gRow :: before), after, gRow'.
      split; [reflexivity|]. split; [now constructor|assumption].
    + exists [], rows, gRow. split; [reflexivity|]. split; [constructor|assumption].
Qed.

(** C2 (as amended).  [ListRows] does not compare the lengths of a row's
    sequences and has no malformed-grid error.  When in every row the decoded
    results, the messages and the icons are each at least as long as the cell
    ids, it returns the response, each row with exactly as many cells as cell
    ids (the positional zip; whatever lies beyond in a longer sequence is
    dropped).  When in some row one of them is shorter than the cell ids, the
    request ends in an index-out-of-range panic and returns neither a
    response nor an error: the panic is that of the first such row of the
    grid, on index [j] of a sequence of length [j], where [j], less than the
    number of cell ids of that row, is the length of the shortest of its
    decoded results, messages and icons. *)
Theorem ListRows_lengths_unchecked (s : Server) (req : Request)
    (dashboardName tabName testGroupName : string) (grid : statepb_Grid) :
  resolves s req dashboardName tabName testGroupName ->
  Grid s (Scope req) dashboardName tabName testGroupName = (Some grid, None) ->
  (Forall coversCellIds (Rows grid) ->
     ListRows s req = Ret (inl {| ResponseRows := map rowRecord (Rows grid) |})
     /\ Forall (fun gRow =>
           length (ResponseRow_Cells (rowRecord gRow))
           = length (Row_CellIds gRow)) (Rows grid))
  /\ (Exists (fun gRow => ~ coversCellIds gRow) (Rows grid) ->
      exists (before after : list statepb_Row) (gRow : statepb_Row),
        Rows grid = before ++ gRow :: after
        /\ Forall coversCellIds before
        /\ ~ coversCellIds gRow
        /\ let j := Z.of_nat
                      (Nat.min (length (decoded gRow))
                         (Nat.min (length (Row_Messages gRow))
                            (length (Row_Icons gRow)))) in
           0 <= j < len (Row_CellIds gRow)
           /\ ListRows s req = Panic (IndexOutOfRange j j)).
Proof.
  intros Hres Hgrid. split.
  - intros Hrows. split.
    + now apply (ListRows_covered _ _ _ _ _ _ Hres Hgrid).
    + eapply Forall_impl; [exact Hrows|]. apply rowRecord_cells_length.
  - intros Hshort.
    destruct (first_short_row _ Hshort)
      as (before & after & gRow & Hrows & Hbefore & Hnot).
    exists before, after, gRow.
    split; [exact Hrows|]. split; [exact Hbefore|]. split; [exact Hnot|].
    destruct (ListRows_row_runs_out gRow Hnot) as [Hj Hpanic].
    cbv zeta. split; [split; [lia|exact Hj]|].
    rewrite (ListRows_resolved _ _ _ _ _ Hres), Hgrid, Hrows.
    assert (Forall (fun gRow' => ListRows_row gRow' = Ret (rowRecord gRow')) before)
      as Hret.
    { eapply Forall_impl; [exact Hbefore|]. apply ListRows_row_covered. }
    now rewrite (forRange_first_panic ListRows_row rowRecord before after gRow
                   _ Hret Hpanic).
Qed.

(** *** Headers *)

(** What the conversion computes on every whole number of milliseconds
    below 2^53 in magnitude: the quotient and the remainder of the truncating
    division. *)
Lemma ListHeaders_started_truncates (gColumn : statepb_Column) (millis : Z) :
  Column_Started gColumn = Float64.ofInt millis ->
  - 2 ^ 53 < millis < 2 ^ 53 ->
  Header_Started (ListHeaders_header gColumn)
  = {| Seconds := Z.quot millis 1000; Nanos := Z.rem millis 1000 * 1000000 |}.
Proof.
  intros Hstarted Hrange. unfold ListHeaders_header. cbv zeta. cbn [Header_Started].
  rewrite Hstarted.
  destruct (started_whole_milliseconds millis Hrange) as [-> ->]. reflexivity.
Qed.

(** C3 (as amended).  For every column whose start time is a whole number of
    milliseconds from 0 up to 2^53 (the integers that a [float64] holds
    exactly), [ListHeaders] produces a Started timestamp whose seconds are
    the floor division of the milliseconds by 1000 and whose nanoseconds are
    (milliseconds mod 1000) * 1e6, between 0 and 999999999. *)
Theorem ListHeaders_started (s : Server) (req : Request)
    (dashboardName tabName testGroupName : string) (grid : statepb_Grid) :
  resolves s req dashboardName tabName testGroupName ->
  Grid s (Scope req) dashboardName tabName testGroupName = (Some grid, None) ->
  ListHeaders s req
  = Ret (inl {| Headers := map ListHeaders_header (Columns grid) |})
  /\ Forall (fun gColumn =>
        forall millis : Z,
          Column_Started gColumn = Float64.ofInt millis ->
          0 <= millis < 2 ^ 53 ->
          let started := Header_Started (ListHeaders_header gColumn) in
          Seconds started = millis / 1000
          /\ Nanos started = (millis mod 1000) * 1000000
          /\ 0 <= Nanos started <= 999999999)
       (Columns grid).
Proof.
  intros Hres Hgrid. split.
  - now rewrite (ListHeaders_resolved _ _ _ _ _ Hres), Hgrid.
  - apply Forall_forall. intros gColumn _ millis Hstarted Hrange started.
    subst started.
    rewrite (ListHeaders_started_truncates gColumn millis Hstarted)
      by (change (2 ^ 53) with 9007199254740992 in *; lia).
    cbn [Seconds Nanos].
    rewrite Z.quot_div_nonneg, Z.rem_mod_nonneg by lia.
    pose proof (Z.mod_pos_bound millis 1000 ltac:(lia)).
    repeat split; lia.
Qed.

(** *** Name index *)

Lemma findDashboardTab_range_no_match (tabs : list configpb_DashboardTab)
    (dashboardName tabName : string) :
  Forall (fun tab => Tab_Name tab <> tabName) tabs ->
  findDashboardTab_range tabs dashboardName tabName
  = (dashboardName, tabName, "", Some TestGroupNotFound).
Proof.
  induction 1 as [|tab tabs Hne _ IH]; simpl; [reflexivity|].
  apply String.eqb_neq in Hne. now rewrite Hne.
Qed.

Lemma findDashboardTab_range_error (tabs : list configpb_DashboardTab)
    (dashboardName tabName d t g : string) (e : error) :
  findDashboardTab_range tabs dashboardName tabName = (d, t, g, Some e) ->
  d = dashboardName /\ t = tabName /\ g = "" /\ e = TestGroupNotFound
  /\ Forall (fun tab => Tab_Name tab <> tabName) tabs.
Proof.
  induction tabs as [|tab tabs IH]; simpl.
  - intros [= <- <- <- <-]. repeat split; constructor.
  - destruct (String.eqb (Tab_Name tab) tabName) eqn:E; [discriminate|].
    intros H. destruct (IH H) as (-> & -> & -> & -> & Hall).
    repeat split. constructor; [now apply String.eqb_neq|assumption].
Qed.

(** C4 (as amended).  The three tiers of failure are those of a cached
    configuration that is not nil and whose [Config] is not nil, for every
    pair of inputs: if the normalized dashboard key is absent the lookup
    fails with the dashboard-not-found error and all three names empty; if
    the dashboard is found and the normalized tab key is absent it fails with
    the tab-not-found error, the dashboard name set and the tab and
    test-group names empty; if both are found, the map of dashboards holds
    the canonical dashboard name and no tab of that dashboard's tab list has
    the canonical tab name, it fails with the test-group-not-found error, the
    dashboard and tab names set and the test-group name empty.  Two cases lie
    outside the three tiers.  When [cfg] or its [Config] is nil the lookup
    fails with a fourth error, the empty-config error, and all three names
    empty, whatever the inputs and the indexes.  When both keys are found and
    the map of dashboards has no entry under the canonical dashboard name,
    the lookup returns nothing: it panics on a nil pointer.  Every error the
    lookup returns belongs to exactly one of the four classes, under the
    conditions of that class. *)
Theorem findDashboardTab_tiers (cfg : option cachedConfig)
    (dashboardInput tabInput : string) :
  let dashboardKey := Normalize dashboardInput in
  let tabKey := Normalize tabInput in
  let found := findDashboardTab cfg dashboardInput tabInput in
  ((cfg = None \/ exists c : cachedConfig, cfg = Some c /\ Config c = None) ->
     found = Ret ("", "", "", Some EmptyConfig))
  /\ (forall (c : cachedConfig) (cfg_Config : snapshot_Config),
        cfg = Some c ->
        Config c = Some cfg_Config ->
        (NormalDashboard c !! dashboardKey = None ->
           found = Ret ("", "", "", Some (DashboardNotFound dashboardKey)))
        /\ (forall dashboardName : string,
              NormalDashboard c !! dashboardKey = Some dashboardName ->
              lookup2 (NormalDashboardTab c) dashboardKey tabKey = None ->
              found = Ret (dashboardName, "", "", Some (TabNotFound tabKey)))
        /\ (forall (dashboardName tabName : string) (d : configpb_Dashboard),
              NormalDashboard c !! dashboardKey = Some dashboardName ->
              lookup2 (NormalDashboardTab c) dashboardKey tabKey = Some tabName ->
              Dashboards cfg_Config !! dashboardName = Some d ->
              Forall (fun tab => Tab_Name tab <> tabName)
                (Dashboard_DashboardTab d) ->
              found = Ret (dashboardName, tabName, "", Some TestGroupNotFound))
        /\ (forall dashboardName tabName : string,
              NormalDashboard c !! dashboardKey = Some dashboardName ->
              lookup2 (NormalDashboardTab c) dashboardKey tabKey = Some tabName ->
              Dashboards cfg_Config !! dashboardName = None ->
              found = Panic NilDereference))
  /\ (forall (dashboardName tabName testGroupName : string) (err : error),
        found = Ret (dashboardName, tabName, testGroupName, Some err) ->
        (err = EmptyConfig
         /\ (cfg = None
             \/ exists c : cachedConfig, cfg = Some c /\ Config c = None)
         /\ dashboardName = "" /\ tabName = "" /\ testGroupName = "")
        \/ (exists (c : cachedConfig) (cfg_Config : snapshot_Config),
              cfg = Some c /\ Config c = Some cfg_Config
              /\ ((err = DashboardNotFound dashboardKey
                   /\ NormalDashboard c !! dashboardKey = None
                   /\ dashboardName = "" /\ tabName = ""
                   /\ testGroupName = "")
                  \/ (err = TabNotFound tabKey
                      /\ NormalDashboard c !! dashboardKey = Some dashboardName
                      /\ lookup2 (NormalDashboardTab c) dashboardKey tabKey = None
                      /\ tabName = "" /\ testGroupName = "")
                  \/ (err = TestGroupNotFound
                      /\ NormalDashboard c !! dashboardKey = Some dashboardName
                      /\ lookup2 (NormalDashboardTab c) dashboardKey tabKey
                         = Some tabName
                      /\ (exists d : configpb_Dashboard,
                            Dashboards cfg_Config !! dashboardName = Some d
                            /\ Forall (fun tab => Tab_Name tab <> tabName)
                                 (Dashboard_DashboardTab d))
                      /\ testGroupName = "")))).
Proof.
  intros dashboardKey tabKey found. subst found dashboardKey tabKey.
  split; [|split].
  - intros [->|(c & -> & Hnil)]; [reflexivity|].
    unfold findDashboardTab. now rewrite Hnil.
  - intros c cfg_Config -> Hcfg. unfold findDashboardTab. rewrite Hcfg. cbv zeta.
    split; [|split; [|split]].
    + intros ->. reflexivity.
    + intros dashboardName -> ->. reflexivity.
    + intros dashboardName tabName d -> -> -> Hno.
      now rewrite findDashboardTab_range_no_match.
    + intros dashboardName tabName -> -> ->. reflexivity.
  - intros dashboardName tabName testGroupName err.
    destruct cfg as [c|].
    2:{ intros [= <- <- <- <-]. left. split; [reflexivity|].
        split; [now left|repeat split]. }
    unfold findDashboardTab.
    destruct (Config c) as [cfg_Config|] eqn:Hcfg.
    2:{ intros [= <- <- <- <-]. left. split; [reflexivity|].
        split; [right; now exists c|repeat split]. }
    cbv zeta. intros H. right. exists c, cfg_Config.
    split; [reflexivity|]. split; [exact Hcfg|]. revert H.
    destruct (NormalDashboard c !! Normalize dashboardInput) as [dn|] eqn:Ed.
    2:{ intros [= <- <- <- <-]. left. repeat split. }
    destruct (lookup2 (NormalDashboardTab c) (Normalize dashboardInput)
                (Normalize tabInput)) as [tn|] eqn:Et.
    2:{ intros [= <- <- <- <-]. right. left. repeat split. }
    destruct (Dashboards cfg_Config !! dn) as [d|] eqn:Edash; [|discriminate].
    intros [= H]. apply findDashboardTab_range_error in H.
    destruct H as (-> & -> & -> & -> & Hno). right. right.
    split; [reflexivity|]. split; [reflexivity|]. split; [reflexivity|].
    split; [|reflexivity]. exists d. now split.
Qed.

(** C5.  The result of [findDashboardTab] depends on the dashboard and tab
    inputs only through their normalized forms: two input pairs whose
    components normalize to the same keys get the same result, the same
    names or the same failure, on every configuration. *)
Theorem findDashboardTab_normalized (cfg : option cachedConfig)
    (dashboardInput tabInput dashboardInput' tabInput' : string) :
  Normalize dashboardInput = Normalize dashboardInput' ->
  Normalize tabInput = Normalize tabInput' ->
  findDashboardTab cfg dashboardInput tabInput
  = findDashboardTab cfg dashboardInput' tabInput'.
Proof.
  intros Hd Ht. unfold findDashboardTab.
  destruct cfg as [cfg|]; [|reflexivity].
  destruct (Config cfg); [|reflexivity].
  cbv zeta. now rewrite Hd, Ht.
Qed.

(** *** Path resolution and fetch *)


(** C6.  When the tab-path prefix is empty, [Grid] is [GroupGrid]: the blob
    is fetched at the test-group path, the base location joined with
    [GridPathPrefix/testGroupName], whatever the dashboard and tab names.
    When the tab-path prefix is set, the blob is fetched at the tab path built
    from the dashboard and tab names, whatever the test-group name. *)
Theorem Grid_path_mode (s : Server)
    (scope dashboardName tabName testGroupName : string) (base : gcsPath) :
  configPath s scope = inl base ->
  (TabPathPrefix s = "" ->
     Grid s scope dashboardName tabName testGroupName
     = GroupGrid s base testGroupName
     /\ (forall path : gcsPath,
          resolveTestGroupPath base (GridPathPrefix s) testGroupName = inl path ->
          Grid s scope dashboardName tabName testGroupName
          = match DownloadGrid s (Client s) path with
            | (_, Some err) => (None, Some (Load err))
            | (grid, None) => (grid, None)
            end)
     /\ (forall dashboardName' tabName' : string,
          Grid s scope dashboardName' tabName' testGroupName
          = Grid s scope dashboardName tabName testGroupName))
  /\ (TabPathPrefix s <> "" ->
      (forall path : gcsPath,
         resolveTabPath base (TabPathPrefix s) dashboardName tabName = inl path ->
         Grid s scope dashboardName tabName testGroupName
         = DownloadGrid s (Client s) path)
      /\ (forall testGroupName' : string,
           Grid s scope dashboardName tabName testGroupName'
           = Grid s scope dashboardName tabName testGroupName)).
Proof.
  intros Hbase. split.
  - intros Hempty. unfold Grid. rewrite Hbase, Hempty. simpl.
    split; [reflexivity|]. split; [|reflexivity].
    intros path Hpath. unfold GroupGrid.
    unfold resolveTestGroupPath in Hpath. rewrite Hpath.
    destruct (DownloadGrid s (Client s) path) as [grid [err|]]; reflexivity.
  - intros Hset. apply String.eqb_neq in Hset.
    unfold Grid. rewrite Hbase, Hset. split; [|reflexivity].
    intros path Hpath. unfold resolveTabPath in Hpath. now rewrite Hpath.
Qed.


End ServiceProofs.

(** ** Further properties of the codec *)

Section CodecFurther.

Lemma len_even_app (a b : list Z) :
  Z.rem (len a) 2 = 0 -> Z.rem (len b) 2 = 0 -> Z.rem (len (a ++ b)) 2 = 0.
Proof.
  intros Ha Hb. destruct (even_length _ Ha) as [n Hn].
  destruct (even_length _ Hb) as [m Hm].
  unfold len. rewrite length_app, Hn, Hm.
  replace (Z.of_nat (2 * n + 2 * m)) with (Z.of_nat (n + m) * 2) by lia.
  apply Z.rem_mul. lia.
Qed.

(** X1.  Decoding distributes over concatenation of well-formed inputs: for
    two inputs of even length, the decoding of their concatenation is the
    decoding of the first followed by the decoding of the second. *)
Theorem decodeRLE_app (a b : list Z) :
  Z.rem (len a) 2 = 0 ->
  Z.rem (len b) 2 = 0 ->
  decodeRLE (a ++ b)
  = do x <- decodeRLE a; do y <- decodeRLE b; Ret (x ++ y).
Proof.
  intros Ha Hb.
  rewrite (decodeRLE_expandRuns a Ha), (decodeRLE_expandRuns b Hb).
  rewrite (decodeRLE_expandRuns (a ++ b)) by now apply len_even_app.
  simpl. now rewrite expandRuns_app.
Qed.

Lemma unitRuns_length (values : list Z) :
  length (unitRuns values) = (2 * length values)%nat.
Proof.
  unfold unitRuns. induction values as [|v values IH]; simpl; [reflexivity|].
  rewrite IH. lia.
Qed.

(** X2.  Every sequence of values is a decoding: the input that pairs each
    value with the run length 1 has even length and [decodeRLE] returns the
    sequence itself from it, in order and with nothing added or lost. *)
Theorem decodeRLE_unitRuns (values : list Z) :
  Z.rem (len (unitRuns values)) 2 = 0
  /\ decodeRLE (unitRuns values) = Ret values.
Proof.
  assert (Z.rem (len (unitRuns values)) 2 = 0) as Heven.
  { unfold len. rewrite unitRuns_length.
    replace (Z.of_nat (2 * length values)) with (Z.of_nat (length values) * 2)
      by lia.
    apply Z.rem_mul. lia. }
  split; [exact Heven|].
  rewrite (decodeRLE_expandRuns _ Heven). f_equal. clear Heven.
  unfold expandRuns, unitRuns.
  induction values as [|v values IH]; simpl; [reflexivity|].
  now rewrite IH.
Qed.

(** X3.  The encoding is not unique: two adjacent runs of the same value
    decode like the single run of their total length.  The run lengths must
    not be negative (a negative one counts as zero, not as itself), and the
    two pairs must start at an even index. *)
Theorem decodeRLE_merge_runs (pre post : list Z) (value a b : Z) :
  Z.rem (len pre) 2 = 0 ->
  0 <= a -> 0 <= b ->
  decodeRLE (pre ++ value :: a :: value :: b :: post)
  = decodeRLE (pre ++ value :: a + b :: post).
Proof.
  intros Hpre Ha Hb. rewrite !decodeRLE_returns.
  assert (Z.even (len (pre ++ value :: a :: value :: b :: post))
          = Z.even (len (pre ++ value :: a + b :: post))) as Hsame.
  { rewrite !len_app. unfold len. simpl length.
    replace (Z.of_nat (S (S (S (S (length post))))))
      with (Z.of_nat (S (S (length post))) + 2 * 1) by lia.
    rewrite Z.add_assoc. now rewrite Z.even_add_mul_2. }
  rewrite Hsame.
  destruct (Z.even (len (pre ++ value :: a + b :: post))); [|reflexivity].
  f_equal. rewrite !expandRuns_app by exact Hpre. f_equal.
  unfold expandRuns. simpl. unfold run. simpl.
  rewrite app_assoc. f_equal.
  rewrite Z2Nat.inj_add by lia. now rewrite replicate_add.
Qed.

Lemma elem_of_run (x : Z) (p : Z * Z) :
  In x (run p) <-> x = fst p /\ 0 < snd p.
Proof.
  unfold run. rewrite <- list_elem_of_In, elem_of_replicate. lia.
Qed.

(** X4.  [decodeRLE] emits nothing but encoded values with a positive run
    length: on an input of even length, a number occurs in the output exactly
    when the input pairs it with a run length above zero.  A run length is
    never emitted as a value. *)
Theorem decodeRLE_elements (encodedData output : list Z) (x : Z) :
  Z.rem (len encodedData) 2 = 0 ->
  decodeRLE encodedData = Ret output ->
  (In x output
   <-> exists runLength : Z,
         In (x, runLength) (rlePairs encodedData) /\ 0 < runLength).
Proof.
  intros Heven Hdec. rewrite (decodeRLE_expandRuns _ Heven) in Hdec.
  injection Hdec as <-. unfold expandRuns. rewrite in_flat_map. split.
  - intros ([v r] & Hin & Hx). apply elem_of_run in Hx. simpl in Hx.
    destruct Hx as [-> Hr]. eauto.
  - intros (r & Hin & Hr). exists (x, r). split; [exact Hin|].
    apply elem_of_run. auto.
Qed.

End CodecFurther.

(** ** Further properties of the service *)

Section ServiceFurther.

Context {ext : Collaborators}.

(** *** [findDashboardTab] *)

Lemma findDashboardTab_range_first (before after : list configpb_DashboardTab)
    (tab : configpb_DashboardTab) (dashboardName tabName : string) :
  Forall (fun tab' => Tab_Name tab' <> tabName) before ->
  Tab_Name tab = tabName ->
  findDashboardTab_range (before ++ tab :: after) dashboardName tabName
  = (dashboardName, tabName, Tab_TestGroupName tab, None).
Proof.
  intros Hbefore Hname. induction Hbefore as [|tab' before Hne _ IH]; simpl.
  - apply String.eqb_eq in Hname. now rewrite Hname.
  - apply String.eqb_neq in Hne. now rewrite Hne.
Qed.

Lemma findDashboardTab_range_found (tabs : list configpb_DashboardTab)
    (dashboardName tabName d t g : string) :
  findDashboardTab_range tabs dashboardName tabName = (d, t, g, None) ->
  d = dashboardName /\ t = tabName
  /\ exists tab : configpb_DashboardTab,
       In tab tabs /\ Tab_Name tab = tabName /\ Tab_TestGroupName tab = g.
Proof.
  induction tabs as [|tab tabs IH]; simpl; [discriminate|].
  destruct (String.eqb (Tab_Name tab) tabName) eqn:E.
  - intros [= <- <- <-]. apply String.eqb_eq in E.
    split; [reflexivity|]. split; [reflexivity|].
    exists tab. split; [now left|]. split; [exact E|reflexivity].
  - intros H. destruct (IH H) as (-> & -> & tab' & Hin & Hname & Hgroup).
    split; [reflexivity|]. split; [reflexivity|].
    exists tab'. split; [now right|]. split; assumption.
Qed.

(** X5.  A lookup succeeds with the first matching tab: when the normalized
    dashboard key and tab key are in the two indexes and the dashboard's tab
    list holds a tab of the canonical tab name, [findDashboardTab] returns
    the canonical dashboard name, the canonical tab name and the test group
    of the first such tab in list order, and no error; later tabs of the same
    name are not considered. *)
Theorem findDashboardTab_first_match (cfg : cachedConfig)
    (cfg_Config : snapshot_Config) (dashboardInput tabInput : string)
    (dashboardName tabName : string) (d : configpb_Dashboard)
    (before after : list configpb_DashboardTab) (tab : configpb_DashboardTab) :
  Config cfg = Some cfg_Config ->
  NormalDashboard cfg !! Normalize dashboardInput = Some dashboardName ->
  lookup2 (NormalDashboardTab cfg) (Normalize dashboardInput)
    (Normalize tabInput) = Some tabName ->
  Dashboards cfg_Config !! dashboardName = Some d ->
  Dashboard_DashboardTab d = before ++ tab :: after ->
  Forall (fun tab' => Tab_Name tab' <> tabName) before ->
  Tab_Name tab = tabName ->
  findDashboardTab (Some cfg) dashboardInput tabInput
  = Ret (dashboardName, tabName, Tab_TestGroupName tab, None).
Proof.
  intros Hcfg Hd Ht Hdash Htabs Hbefore Hname.
  unfold findDashboardTab. rewrite Hcfg. cbv zeta. rewrite Hd, Ht, Hdash, Htabs.
  now rewrite findDashboardTab_range_first.
Qed.

(** X6.  A lookup never makes a name up: when [findDashboardTab] returns no
    error, the configuration and its [Config] are not nil, the dashboard name
    and the tab name are what the two indexes hold for the normalized inputs,
    and the test group is that of a tab of this name in the tab list of this
    dashboard. *)
Theorem findDashboardTab_sound (cfg : option cachedConfig)
    (dashboardInput tabInput dashboardName tabName testGroupName : string) :
  findDashboardTab cfg dashboardInput tabInput
  = Ret (dashboardName, tabName, testGroupName, None) ->
  exists (c : cachedConfig) (cfg_Config : snapshot_Config)
         (d : configpb_Dashboard) (tab : configpb_DashboardTab),
    cfg = Some c
    /\ Config c = Some cfg_Config
    /\ NormalDashboard c !! Normalize dashboardInput = Some dashboardName
    /\ lookup2 (NormalDashboardTab c) (Normalize dashboardInput)
         (Normalize tabInput) = Some tabName
    /\ Dashboards cfg_Config !! dashboardName = Some d
    /\ In tab (Dashboard_DashboardTab d)
    /\ Tab_Name tab = tabName
    /\ Tab_TestGroupName tab = testGroupName.
Proof.
  unfold findDashboardTab. destruct cfg as [c|]; [|discriminate].
  destruct (Config c) as [cfg_Config|] eqn:Hcfg; [|discriminate]. cbv zeta.
  destruct (NormalDashboard c !! Normalize dashboardInput) as [dn|] eqn:Hd;
    [|discriminate].
  destruct (lookup2 (NormalDashboardTab c) (Normalize dashboardInput)
              (Normalize tabInput)) as [tn|] eqn:Ht; [|discriminate].
  destruct (Dashboards cfg_Config !! dn) as [d|] eqn:Hdash; [|discriminate].
  intros [= H]. apply findDashboardTab_range_found in H.
  destruct H as (-> & -> & tab & Hin & Hname & Hgroup).
  exists c, cfg_Config, d, tab. repeat split; assumption.
Qed.

(** *** [GroupGrid] and [Grid] *)

(** X7.  [GroupGrid] never returns a grid together with an error.  An error
    it returns is the failure to resolve the path, wrapped as "resolve", in
    which case the store is not asked, or the failure of the download,
    wrapped as "load", in which case whatever grid came with it is dropped. *)
Theorem GroupGrid_error (s : Server) (base : gcsPath) (groupName : string)
    (grid : option statepb_Grid) (err : error) :
  GroupGrid s base groupName = (grid, Some err) ->
  grid = None
  /\ ((exists cause : error,
         resolveTestGroupPath base (GridPathPrefix s) groupName = inr cause
         /\ err = Resolve cause)
      \/ (exists (path : gcsPath) (dropped : option statepb_Grid) (cause : error),
            resolveTestGroupPath base (GridPathPrefix s) groupName = inl path
            /\ DownloadGrid s (Client s) path = (dropped, Some cause)
            /\ err = Load cause)).
Proof.
  unfold GroupGrid, resolveTestGroupPath.
  destruct (ResolveReference base (pathJoin (GridPathPrefix s) groupName))
    as [path|cause].
  - destruct (DownloadGrid s (Client s) path) as [dropped [cause|]] eqn:Hload.
    + intros [= <- <-]. split; [reflexivity|]. right.
      exists path, dropped, cause. repeat split. exact Hload.
    + discriminate.
  - intros [= <- <-]. split; [reflexivity|]. left.
    exists cause. split; reflexivity.
Qed.

(** X8.  When the base location of the scope cannot be determined, [Grid]
    returns that error as it is and no grid, in both path modes and whatever
    the store holds.  When the tab path cannot be built, it returns the cause
    wrapped as "tab state path" and no grid.  Once the tab path is built, it
    returns the answer of the store for that path unchanged, grid and
    error. *)
Theorem Grid_tab_mode_errors (s : Server)
    (scope dashboardName tabName testGroupName : string) :
  (forall err : error,
     configPath s scope = inr err ->
     Grid s scope dashboardName tabName testGroupName = (None, Some err))
  /\ (forall (base : gcsPath) (cause : error),
       configPath s scope = inl base ->
       TabPathPrefix s <> "" ->
       resolveTabPath base (TabPathPrefix s) dashboardName tabName = inr cause ->
       Grid s scope dashboardName tabName testGroupName
       = (None, Some (TabStatePathFailed cause)))
  /\ (forall (base path : gcsPath),
       configPath s scope = inl base ->
       TabPathPrefix s <> "" ->
       resolveTabPath base (TabPathPrefix s) dashboardName tabName = inl path ->
       Grid s scope dashboardName tabName testGroupName
       = DownloadGrid s (Client s) path).
Proof.
  unfold Grid, resolveTabPath. split; [|split].
  - intros err ->. reflexivity.
  - intros base cause -> Hset Hpath. apply String.eqb_neq in Hset.
    now rewrite Hset, Hpath.
  - intros base path -> Hset Hpath. apply String.eqb_neq in Hset.
    now rewrite Hset, Hpath.
Qed.

(** *** The handlers *)

(** Both sides are the same error, the same panic, or neither an error nor a
    panic on the left. *)
Ltac same_answer :=
  split;
  [ intros ?; split; intros H; try discriminate H;
    injection H as ->; reflexivity
  | intros ? H; try discriminate H; injection H as ->; reflexivity ].

(** X9.  [ListHeaders] and [ListRows] fail alike: for every server and
    request, one returns an error exactly when the other returns the same
    error, and a panic of [ListHeaders] is a panic of [ListRows].  (The
    converse does not hold: [ListRows] alone reads the rows.) *)
Theorem ListHeaders_ListRows_errors (s : Server) (req : Request) :
  (forall err : error,
     ListHeaders s req = Ret (inr err) <-> ListRows s req = Ret (inr err))
  /\ (forall p : panic,
       ListHeaders s req = Panic p -> ListRows s req = Panic p).
Proof.
  unfold ListHeaders, ListRows.
  destruct (getConfig s (Scope req)) as [cfg [e|]]; [same_answer|].
  destruct cfg as [c|]; [|same_answer].
  destruct (findDashboardTab (Some c) (Dashboard req) (Tab req))
    as [[[[dn tn] gn] [e|]]|p]; simpl; [same_answer| |same_answer].
  destruct (Grid s (Scope req) dn tn gn) as [[grid|] [e|]];
    [same_answer| |same_answer|same_answer].
  destruct (forRange ListRows_row (Rows grid) []); simpl; same_answer.
Qed.

(** X10.  When the configuration cannot be loaded, both operations return
    the error of [getConfig] as it is, whatever pointer came with it, and
    both HTTP handlers answer it with the not-found status; neither the name
    indexes nor the store are consulted. *)
Theorem getConfig_error_answers (s : Server) (req : Request)
    (cfg : option cachedConfig) (err : error) :
  getConfig s (Scope req) = (cfg, Some err) ->
  ListHeaders s req = Ret (inr err)
  /\ ListRows s req = Ret (inr err)
  /\ ListHeadersHTTP s (Scope req) (Dashboard req) (Tab req)
     = Ret (httpError err StatusNotFound)
  /\ ListRowsHTTP s (Scope req) (Dashboard req) (Tab req)
     = Ret (httpError err StatusNotFound).
Proof.
  intros Hcfg.
  assert ({| Scope := Scope req; Dashboard := Dashboard req; Tab := Tab req |}
          = req) as Hreq by now destruct req.
  assert (ListHeaders s req = Ret (inr err)) as HH
    by (unfold ListHeaders; now rewrite Hcfg).
  assert (ListRows s req = Ret (inr err)) as HR
    by (unfold ListRows; now rewrite Hcfg).
  unfold ListHeadersHTTP, ListRowsHTTP. cbv zeta.
  rewrite Hreq, HH, HR. repeat split.
Qed.

(** X11.  The nil checks of [findDashboardTab] as the handlers reach them:
    when [getConfig] returns a nil pointer and no error, both operations
    panic on the nil pointer before the lookup; when it returns a
    configuration whose [Config] is nil, both return the "empty config"
    error, whatever the indexes hold. *)
Theorem nil_config_answers (s : Server) (req : Request) :
  (getConfig s (Scope req) = (None, None) ->
   ListHeaders s req = Panic NilDereference
   /\ ListRows s req = Panic NilDereference)
  /\ (forall cfg : cachedConfig,
       getConfig s (Scope req) = (Some cfg, None) ->
       Config cfg = None ->
       ListHeaders s req = Ret (inr EmptyConfig)
       /\ ListRows s req = Ret (inr EmptyConfig)).
Proof.
  split.
  - intros Hcfg. unfold ListHeaders, ListRows. now rewrite Hcfg.
  - intros cfg Hcfg Hnil. unfold ListHeaders, ListRows, findDashboardTab.
    now rewrite Hcfg, Hnil.
Qed.

(** X12.  A failed lookup reaches the client as it is: when
    [findDashboardTab] returns an error, both HTTP handlers answer with this
    very error, which names the normalized key and not the text of the
    request, and with the not-found status. *)
Theorem lookup_error_answers (s : Server) (scopeParam dashboard tab : string)
    (cfg : cachedConfig) (dashboardName tabName testGroupName : string)
    (err : error) :
  getConfig s scopeParam = (Some cfg, None) ->
  findDashboardTab (Some cfg) dashboard tab
  = Ret (dashboardName, tabName, testGroupName, Some err) ->
  ListHeadersHTTP s scopeParam dashboard tab
  = Ret (httpError err StatusNotFound)
  /\ ListRowsHTTP s scopeParam dashboard tab
     = Ret (httpError err StatusNotFound).
Proof.
  intros Hcfg Hfound.
  unfold ListHeadersHTTP, ListRowsHTTP, ListHeaders, ListRows. cbv zeta.
  cbn [Scope Dashboard Tab]. now rewrite Hcfg, Hfound.
Qed.

Lemma findDashboardTab_keys (cfg : option cachedConfig)
    (dashboardInput tabInput dashboardInput' tabInput' : string) :
  Normalize dashboardInput = Normalize dashboardInput' ->
  Normalize tabInput = Normalize tabInput' ->
  findDashboardTab cfg dashboardInput tabInput
  = findDashboardTab cfg dashboardInput' tabInput'.
Proof.
  intros Hd Ht. unfold findDashboardTab.
  destruct cfg as [cfg|]; [|reflexivity].
  destruct (Config cfg); [|reflexivity].
  cbv zeta. now rewrite Hd, Ht.
Qed.

(** X13.  A response does not depend on the spelling of the request: two
    requests for the same scope whose dashboards and whose tabs normalize to
    the same keys get the same headers and the same rows whenever one of
    them gets a response. *)
Theorem response_normalized (s : Server) (req req' : Request) :
  Scope req = Scope req' ->
  Normalize (Dashboard req) = Normalize (Dashboard req') ->
  Normalize (Tab req) = Normalize (Tab req') ->
  (forall resp : ListHeadersResponse,
     ListHeaders s req = Ret (inl resp) -> ListHeaders s req' = Ret (inl resp))
  /\ (forall resp : ListRowsResponse,
       ListRows s req = Ret (inl resp) -> ListRows s req' = Ret (inl resp)).
Proof.
  intros Hscope Hd Ht. unfold ListHeaders, ListRows.
  rewrite <- Hscope.
  destruct (getConfig s (Scope req)) as [cfg [e|]];
    [split; discriminate|].
  destruct cfg as [c|]; [|split; discriminate].
  rewrite <- (findDashboardTab_keys (Some c) _ _ _ _ Hd Ht).
  destruct (findDashboardTab (Some c) (Dashboard req) (Tab req))
    as [[[[dn tn] gn] [e|]]|p]; simpl; try (split; discriminate).
  destruct (Grid s (Scope req) dn tn gn) as [[grid|] [e|]];
    try (split; discriminate).
  split; intros resp H; exact H.
Qed.

(** *** Rows that break the alignment *)

(** X14.  Results of odd length are not reported: they decode to nothing, so
    a row with such results and no cell id yields a row record without
    cells, and a row with such results and at least one cell id makes the
    cell loop panic at once, on index 0 of an empty sequence. *)
Theorem ListRows_row_odd_results (gRow : statepb_Row) :
  Z.rem (len (Row_Results gRow)) 2 <> 0 ->
  (Row_CellIds gRow = [] ->
   ListRows_row gRow
   = Ret {| ResponseRow_Name := Row_Name gRow;
            ResponseRow_Issues := Row_Issues gRow;
            ResponseRow_Alert := Row_AlertInfo gRow;
            ResponseRow_Cells := [] |})
  /\ (Row_CellIds gRow <> [] ->
      ListRows_row gRow = Panic (IndexOutOfRange 0 0)).
Proof.
  intros Hodd. unfold ListRows_row. cbv zeta.
  rewrite (decodeRLE_odd_length _ Hodd). cbn [bind]. split.
  - intros ->. simp ListRows_cells.
    destruct (Z_lt_dec 0 (len [])) as [Hlt|Hge]; [discriminate Hlt|reflexivity].
  - intros Hids. simp ListRows_cells.
    destruct (Z_lt_dec 0 (len (Row_CellIds gRow))) as [Hlt|Hge]; [reflexivity|].
    exfalso. apply Hge. destruct (Row_CellIds gRow); [congruence|].
    unfold len. simpl. lia.
Qed.

(** X15.  The first row that breaks ends the request: when the rows before
    a row are all long enough for their cell ids and, in that row, the
    decoded results, the messages or the icons are fewer than the cell ids,
    [ListRows] panics with index [j] out of range of length [j], where [j]
    is the length of the shortest of the three; the rows already converted
    and the cells before [j] are not returned, and the rows after are not
    read. *)
Theorem ListRows_first_short_row (s : Server) (req : Request)
    (dashboardName tabName testGroupName : string) (grid : statepb_Grid)
    (before after : list statepb_Row) (gRow : statepb_Row) :
  resolves s req dashboardName tabName testGroupName ->
  Grid s (Scope req) dashboardName tabName testGroupName = (Some grid, None) ->
  Rows grid = before ++ gRow :: after ->
  Forall coversCellIds before ->
  ~ coversCellIds gRow ->
  let j := Z.of_nat
             (Nat.min (length (decoded gRow))
                (Nat.min (length (Row_Messages gRow))
                   (length (Row_Icons gRow)))) in
  ListRows s req = Panic (IndexOutOfRange j j).
Proof.
  intros Hres Hgrid Hrows Hbefore Hshort j.
  rewrite (ListRows_resolved _ _ _ _ _ Hres), Hgrid, Hrows.
  rewrite (forRange_first_panic ListRows_row rowRecord before after gRow
             (IndexOutOfRange j j)); [reflexivity| |]; subst j.
  - eapply Forall_impl; [exact Hbefore|]. apply ListRows_row_covered.
  - unfold ListRows_row. cbv zeta. rewrite decodeRLE_decoded. cbn [bind].
    pose proof (ListRows_cells_runs_out gRow (decoded gRow)
                  (Nat.min (length (decoded gRow))
                     (Nat.min (length (Row_Messages gRow))
                        (length (Row_Icons gRow))))
                  0 [] eq_refl) as Hloop.
    cbv zeta in Hloop. change (Z.of_nat 0) with 0 in Hloop.
    rewrite Hloop; [reflexivity|].
    unfold coversCellIds in Hshort. lia.
Qed.

(** X17.  A response of [ListRows] is never partial: whenever it returns a
    response, no row of the grid has fewer decoded results, messages or
    icons than cell ids, and the response has one row record per grid row, in
    grid order, each with as many cells as the grid row has cell ids. *)
Theorem ListRows_response_complete (s : Server) (req : Request)
    (dashboardName tabName testGroupName : string) (grid : statepb_Grid)
    (resp : ListRowsResponse) :
  resolves s req dashboardName tabName testGroupName ->
  Grid s (Scope req) dashboardName tabName testGroupName = (Some grid, None) ->
  ListRows s req = Ret (inl resp) ->
  Forall coversCellIds (Rows grid)
  /\ ResponseRows resp = map rowRecord (Rows grid)
  /\ length (ResponseRows resp) = length (Rows grid)
  /\ Forall (fun gRow =>
        length (ResponseRow_Cells (rowRecord gRow))
        = length (Row_CellIds gRow)) (Rows grid).
Proof.
  intros Hres Hgrid Hresp.
  destruct (Forall_Exists_dec coversCellIds (fun gRow => ~ coversCellIds gRow)
              coversCellIds_dec (Rows grid)) as [Hall|Hsome].
  - split; [exact Hall|].
    rewrite (ListRows_covered _ _ _ _ _ _ Hres Hgrid Hall) in Hresp.
    injection Hresp as <-. cbn [ResponseRows].
    split; [reflexivity|]. split; [apply length_map|].
    eapply Forall_impl; [exact Hall|]. apply rowRecord_cells_length.
  - exfalso.
    rewrite (ListRows_resolved _ _ _ _ _ Hres), Hgrid in Hresp.
    destruct (forRange_panic ListRows_row (Rows grid))
      with (ys := @nil ListRowsResponse_Row) as [p Hp].
    + eapply Exists_impl; [exact Hsome|]. apply ListRows_row_short.
    + rewrite Hp in Hresp. discriminate Hresp.
Qed.

(** *** Timestamps *)

(** X16.  The timestamp of a header is the start time itself: for a start
    time of a whole number of milliseconds below 2^53 in magnitude, of
    either sign, seconds * 1e9 + nanoseconds equals milliseconds * 1e6, the
    nanoseconds are below one second in magnitude, and neither field has a
    sign opposite to that of the milliseconds. *)
Theorem ListHeaders_started_instant (gColumn : statepb_Column) (millis : Z) :
  Column_Started gColumn = Float64.ofInt millis ->
  - 2 ^ 53 < millis < 2 ^ 53 ->
  let started := Header_Started (ListHeaders_header gColumn) in
  Seconds started * 1000000000 + Nanos started = millis * 1000000
  /\ - 1000000000 < Nanos started < 1000000000
  /\ (0 <= millis -> 0 <= Seconds started /\ 0 <= Nanos started)
  /\ (millis <= 0 -> Seconds started <= 0 /\ Nanos started <= 0).
Proof.
  intros Hstarted Hrange started. subst started.
  rewrite (ListHeaders_started_truncates gColumn millis Hstarted Hrange).
  cbn [Seconds Nanos].
  pose proof (Z.quot_rem' millis 1000) as Hqr.
  pose proof (Z.rem_bound_abs millis 1000 ltac:(lia)) as Habs.
  split; [lia|]. split; [lia|]. split.
  - intros Hpos.
    pose proof (Z.quot_pos millis 1000 Hpos ltac:(lia)).
    pose proof (Z.rem_nonneg millis 1000 ltac:(lia) Hpos). lia.
  - intros Hneg.
    pose proof (Z.quot_opp_l millis 1000 ltac:(lia)) as Hq.
    pose proof (Z.rem_opp_l millis 1000 ltac:(lia)) as Hr.
    pose proof (Z.quot_pos (- millis) 1000 ltac:(lia) ltac:(lia)).
    pose proof (Z.rem_nonneg (- millis) 1000 ltac:(lia) ltac:(lia)). lia.
Qed.

End ServiceFurther.

(** ** The properties on the in-memory deployment *)

#[local] Existing Instance Fixture.collaborators.

(** C1 on the documented example. *)
Lemma decodeRLE_even_length_witness :
  Z.rem (len [0; 3; 5; 4]) 2 = 0
  /\ decodeRLE [0; 3; 5; 4] = Ret (expandRuns [0; 3; 5; 4])
  /\ len (expandRuns [0; 3; 5; 4]) = 7.
Proof.
  split; [reflexivity|].
  pose proof (decodeRLE_even_length [0; 3; 5; 4] eq_refl) as (H1 & H2 & _).
  split; [exact H1|exact H2].
Defined.

(** C8 on an input of three elements. *)
Lemma decodeRLE_odd_length_empty_witness :
  Z.rem (len [0; 3; 5]) 2 <> 0 /\ decodeRLE [0; 3; 5] = Ret [].
Proof.
  assert (Z.rem (len [0; 3; 5]) 2 <> 0) as Hodd by (vm_compute; discriminate).
  split; [exact Hodd|].
  exact (proj1 (decodeRLE_odd_length_empty [0; 3; 5] Hodd)).
Defined.

(** C10 on an input whose first run length is negative. *)
Lemma decodeRLE_total_witness :
  decodeRLE [7; -1; 2; 3] = Ret [2; 2; 2]
  /\ expandClamped [7; -1; 2; 3] = expandClamped [] ++ expandClamped [2; 3].
Proof.
  split.
  - exact (proj1 (decodeRLE_total [7; -1; 2; 3])).
  - apply (proj2 (decodeRLE_total [7; -1; 2; 3]) [] [2; 3] 7 (-1));
      [reflexivity | reflexivity | lia].
Defined.

(** On the in-memory snapshot the request resolves to tab [Tab1] of
    dashboard [My Dash], backed by test group [group-1]. *)
Lemma Fixture_resolves (tabPathPrefix : string)
    (store : gcsClient -> gcsPath -> option statepb_Grid * option error) :
  resolves (Fixture.server tabPathPrefix store) Fixture.request
    "My Dash" "Tab1" "group-1".
Proof. exists Fixture.snapshot. split; reflexivity. Defined.

(** C7 on a grid with one aligned row of two cells. *)
Lemma ListRows_aligned_witness :
  ListRows (Fixture.server "" (Fixture.always (Some Fixture.alignedGrid, None)))
    Fixture.request
  = Ret (inl {| ResponseRows :=
       [ {| ResponseRow_Name := "test-a";
            ResponseRow_Issues := ["123"];
            ResponseRow_Alert := None;
            ResponseRow_Cells :=
              [ {| Cell_Result := 1; Cell_CellId := "a";
                   Cell_Message := "m1"; Cell_Icon := "i1" |};
                {| Cell_Result := 1; Cell_CellId := "b";
                   Cell_Message := "m2"; Cell_Icon := "i2" |} ] |} ] |}).
Proof.
  refine (proj1 (ListRows_aligned
                   (Fixture.server "" (Fixture.always (Some Fixture.alignedGrid, None)))
                   Fixture.request "My Dash" "Tab1" "group-1"
                   Fixture.alignedGrid (Fixture_resolves _ _) eq_refl _)).
  constructor; [|constructor].
  repeat split; reflexivity.
Defined.

(** C2, the claim as stated, fails: the decoded results of the row have three
    elements, its cell ids, messages and icons one each, and [ListRows]
    returns the response with the row cut down to one cell. *)
Lemma ListRows_truncates_long_results :
  length (decoded Fixture.longResultsRow) = 3%nat
  /\ length (Row_CellIds Fixture.longResultsRow) = 1%nat
  /\ ListRows
       (Fixture.server "" (Fixture.always (Some Fixture.longResultsGrid, None)))
       Fixture.request
     = Ret (inl {| ResponseRows :=
         [ {| ResponseRow_Name := "test-b";
              ResponseRow_Issues := [];
              ResponseRow_Alert := None;
              ResponseRow_Cells :=
                [ {| Cell_Result := 1; Cell_CellId := "a";
                     Cell_Message := "m1"; Cell_Icon := "i1" |} ] |} ] |}).
Proof. repeat split; vm_compute; reflexivity. Qed.

(** C2 (as amended) on a row with more decoded results than cell ids, and on
    a grid whose second row has one decoded result for two cell ids. *)
Lemma ListRows_lengths_unchecked_witness :
  ListRows
    (Fixture.server "" (Fixture.always (Some Fixture.longResultsGrid, None)))
    Fixture.request
  = Ret (inl {| ResponseRows := [rowRecord Fixture.longResultsRow] |})
  /\ ListRows
       (Fixture.server "" (Fixture.always (Some Fixture.shortResultsGrid, None)))
       Fixture.request
     = Panic (IndexOutOfRange 1 1).
Proof.
  split.
  - refine (proj1 (proj1 (ListRows_lengths_unchecked
                            (Fixture.server ""
                               (Fixture.always (Some Fixture.longResultsGrid, None)))
                            Fixture.request
                            "My Dash" "Tab1" "group-1" Fixture.longResultsGrid
                            (Fixture_resolves _ _) eq_refl) _)).
    constructor; [|constructor].
    repeat split; vm_compute; lia.
  - assert (Exists (fun gRow => ~ coversCellIds gRow)
              (Rows Fixture.shortResultsGrid)) as Hshort.
    { apply Exists_cons_tl, Exists_cons_hd.
      intros (H & _). vm_compute in H. lia. }
    destruct (proj2 (ListRows_lengths_unchecked
                       (Fixture.server ""
                          (Fixture.always (Some Fixture.shortResultsGrid, None)))
                       Fixture.request
                       "My Dash" "Tab1" "group-1" Fixture.shortResultsGrid
                       (Fixture_resolves _ _) eq_refl) Hshort)
      as (before & after & gRow & Hrows & _ & Hnot & _ & Hpanic).
    rewrite Hpanic. clear Hpanic Hshort.
    destruct before as [|gRow1 [|gRow2 before]]; simpl in Hrows.
    + exfalso. injection Hrows as <- _. apply Hnot.
      repeat split; vm_compute; lia.
    + injection Hrows as _ <- _. reflexivity.
    + exfalso. injection Hrows as _ _ Hrows.
      destruct before; discriminate Hrows.
Defined.

(** C3, the claim as stated, fails: for a column started 1500 ms before the
    epoch [ListHeaders] answers -1 s and -500000000 ns, where the floor
    division gives -2 s and the true modulo 500000000 ns. *)
Lemma ListHeaders_started_before_epoch :
  ListHeaders
    (Fixture.server "" (Fixture.always (Some Fixture.beforeEpochGrid, None)))
    Fixture.request
  = Ret (inl {| Headers :=
      [ {| Header_Name := "c0"; Header_Build := "b0";
           Header_Started := {| Seconds := -1; Nanos := -500000000 |};
           Header_Extra := []; Header_HotlistIds := "" |} ] |})
  /\ -1 <> -1500 / 1000
  /\ -500000000 <> (-1500 mod 1000) * 1000000
  /\ -500000000 < 0.
Proof. repeat split; vm_compute; congruence. Qed.

(** C3 (as amended) on a column started 1500 ms after the epoch. *)
Lemma ListHeaders_started_witness :
  ListHeaders
    (Fixture.server "" (Fixture.always (Some Fixture.alignedGrid, None)))
    Fixture.request
  = Ret (inl {| Headers :=
      [ {| Header_Name := "c1"; Header_Build := "b1";
           Header_Started := {| Seconds := 1; Nanos := 500000000 |};
           Header_Extra := []; Header_HotlistIds := "" |} ] |})
  /\ Seconds (Header_Started (ListHeaders_header Fixture.column1)) = 1500 / 1000.
Proof.
  pose proof (ListHeaders_started
                (Fixture.server "" (Fixture.always (Some Fixture.alignedGrid, None)))
                Fixture.request "My Dash" "Tab1" "group-1"
                Fixture.alignedGrid (Fixture_resolves _ _) eq_refl) as [H1 H2].
  split; [exact H1|].
  apply Forall_inv in H2.
  apply (H2 1500 eq_refl). vm_compute. split; congruence.
Defined.

(** C4, the claim as stated, fails: on a cached configuration whose [Config]
    is nil, a lookup of a dashboard whose normalized key the index does not
    have fails with the empty-config error, which is none of the three
    tiers. *)
Lemma findDashboardTab_nil_config_no_tier :
  NormalDashboard Fixture.hollowSnapshot !! Normalize "No Such" = None
  /\ findDashboardTab (Some Fixture.hollowSnapshot) "No Such" "Tab1"
     = Ret ("", "", "", Some EmptyConfig)
  /\ findDashboardTab (Some Fixture.hollowSnapshot) "No Such" "Tab1"
     <> Ret ("", "", "", Some (DashboardNotFound (Normalize "No Such")))
  /\ EmptyConfig <> TabNotFound (Normalize "Tab1")
  /\ EmptyConfig <> TestGroupNotFound.
Proof. repeat split; vm_compute; congruence. Qed.

(** C4 (as amended) on the in-memory snapshot, one lookup per tier, on a
    cached configuration whose [Config] is nil, and on one whose indexes list
    a dashboard that the map of dashboards does not hold. *)
Lemma findDashboardTab_tiers_witness :
  findDashboardTab (Some Fixture.snapshot) "No Such" "Tab1"
  = Ret ("", "", "", Some (DashboardNotFound "no such"))
  /\ findDashboardTab (Some Fixture.snapshot) "My Dash" "Tab 9"
     = Ret ("My Dash", "", "", Some (TabNotFound "tab 9"))
  /\ findDashboardTab (Some Fixture.snapshot) "My Dash" "Ghost"
     = Ret ("My Dash", "Ghost", "", Some TestGroupNotFound)
  /\ findDashboardTab (Some Fixture.hollowSnapshot) "My Dash" "Tab1"
     = Ret ("", "", "", Some EmptyConfig)
  /\ findDashboardTab (Some Fixture.orphanSnapshot) "My Dash" "Tab1"
     = Panic NilDereference.
Proof.
  split; [|split; [|split; [|split]]].
  - pose proof (findDashboardTab_tiers (Some Fixture.snapshot) "No Such" "Tab1")
      as (_ & Htiers & _).
    destruct (Htiers Fixture.snapshot _ eq_refl eq_refl) as (Hdashboard & _).
    apply Hdashboard. reflexivity.
  - pose proof (findDashboardTab_tiers (Some Fixture.snapshot) "My Dash" "Tab 9")
      as (_ & Htiers & _).
    destruct (Htiers Fixture.snapshot _ eq_refl eq_refl) as (_ & Htab & _).
    apply Htab; reflexivity.
  - pose proof (findDashboardTab_tiers (Some Fixture.snapshot) "My Dash" "Ghost")
      as (_ & Htiers & _).
    destruct (Htiers Fixture.snapshot _ eq_refl eq_refl) as (_ & _ & Hgroup & _).
    apply Hgroup with (d := Fixture.myDash); try reflexivity.
    repeat constructor; discriminate.
  - pose proof (findDashboardTab_tiers (Some Fixture.hollowSnapshot)
                  "My Dash" "Tab1") as (Hnil & _).
    apply Hnil. right. exists Fixture.hollowSnapshot. split; reflexivity.
  - pose proof (findDashboardTab_tiers (Some Fixture.orphanSnapshot)
                  "My Dash" "Tab1") as (_ & Htiers & _).
    destruct (Htiers Fixture.orphanSnapshot _ eq_refl eq_refl)
      as (_ & _ & _ & Hpanic).
    apply (Hpanic "My Dash" "Tab1"); reflexivity.
Defined.

(** C5 on two spellings of the same dashboard and tab. *)
Lemma findDashboardTab_normalized_witness :
  Normalize "My Dash" = Normalize "  my   dash  "
  /\ Normalize "Tab1" = Normalize "tab1"
  /\ findDashboardTab (Some Fixture.snapshot) "My Dash" "Tab1"
     = findDashboardTab (Some Fixture.snapshot) "  my   dash  " "tab1"
  /\ findDashboardTab (Some Fixture.snapshot) "  my   dash  " "tab1"
     = Ret ("My Dash", "Tab1", "group-1", None).
Proof.
  split; [reflexivity|]. split; [reflexivity|]. split; [|reflexivity].
  apply (findDashboardTab_normalized (Some Fixture.snapshot)
           "My Dash" "Tab1" "  my   dash  " "tab1"); reflexivity.
Defined.

(** C6 on stores that hold the grid at the test-group path only, and at the
    tab path only. *)
Lemma Grid_path_mode_witness :
  Grid (Fixture.server ""
          (Fixture.only "gs://bucket/grid/group-1" Fixture.alignedGrid))
    "bucket" "My Dash" "Tab1" "group-1"
  = (Some Fixture.alignedGrid, None)
  /\ Grid (Fixture.server "tabs"
             (Fixture.only "gs://bucket/tabs/My Dash/Tab1" Fixture.alignedGrid))
       "bucket" "My Dash" "Tab1" "group-1"
     = (Some Fixture.alignedGrid, None).
Proof.
  split.
  - pose proof (Grid_path_mode
                  (Fixture.server ""
                     (Fixture.only "gs://bucket/grid/group-1" Fixture.alignedGrid))
                  "bucket" "My Dash" "Tab1" "group-1" "gs://bucket" eq_refl)
      as (Hgroup & _).
    destruct (Hgroup eq_refl) as (_ & Hfetch & _).
    exact (Hfetch "gs://bucket/grid/group-1" eq_refl).
  - pose proof (Grid_path_mode
                  (Fixture.server "tabs"
                     (Fixture.only "gs://bucket/tabs/My Dash/Tab1"
                        Fixture.alignedGrid))
                  "bucket" "My Dash" "Tab1" "group-1" "gs://bucket" eq_refl)
      as (_ & Htab).
    destruct Htab as (Hfetch & _); [discriminate|].
    exact (Hfetch "gs://bucket/tabs/My Dash/Tab1" eq_refl).
Defined.



(** ** The further properties on the in-memory deployment *)

(** X1 on the two pairs of the documented example. *)
Lemma decodeRLE_app_witness :
  decodeRLE ([0; 3] ++ [5; 4]) = Ret ([0; 0; 0] ++ [5; 5; 5; 5]).
Proof. exact (decodeRLE_app [0; 3] [5; 4] eq_refl eq_refl). Defined.

(** X3 on two runs of the value 5, of lengths 2 and 1. *)
Lemma decodeRLE_merge_runs_witness :
  decodeRLE ([9; 1] ++ [5; 2; 5; 1; 4; 1]) = decodeRLE ([9; 1] ++ [5; 3; 4; 1]).
Proof.
  apply (decodeRLE_merge_runs [9; 1] [4; 1] 5 2 1); [reflexivity|lia|lia].
Defined.

(** X4 on an input whose second pair has the run length zero. *)
Lemma decodeRLE_elements_witness :
  In 5 [0; 0; 0]
  <-> exists runLength : Z,
        In (5, runLength) (rlePairs [0; 3; 5; 0]) /\ 0 < runLength.
Proof.
  apply (decodeRLE_elements [0; 3; 5; 0] [0; 0; 0] 5); reflexivity.
Defined.

(** X5 on the dashboard that has the tab name twice. *)
Lemma findDashboardTab_first_match_witness :
  findDashboardTab (Some Fixture.twinSnapshot) "My Dash" "tab1"
  = Ret ("My Dash", "Tab1", "group-1", None).
Proof.
  apply (findDashboardTab_first_match Fixture.twinSnapshot
           {| Dashboards := {[ "My Dash" := Fixture.twinDash ]} |}
           "My Dash" "tab1" "My Dash" "Tab1" Fixture.twinDash
           [ {| Tab_Name := "Tab2"; Tab_TestGroupName := "group-2" |} ]
           [ {| Tab_Name := "Tab1"; Tab_TestGroupName := "group-9" |} ]
           {| Tab_Name := "Tab1"; Tab_TestGroupName := "group-1" |});
    try reflexivity.
  repeat constructor. discriminate.
Defined.

(** X6 on a lookup that succeeds. *)
Lemma findDashboardTab_sound_witness :
  exists (c : cachedConfig) (cfg_Config : snapshot_Config)
         (d : configpb_Dashboard) (tab : configpb_DashboardTab),
    Some Fixture.snapshot = Some c
    /\ Config c = Some cfg_Config
    /\ NormalDashboard c !! Normalize "My Dash" = Some "My Dash"
    /\ lookup2 (NormalDashboardTab c) (Normalize "My Dash") (Normalize "Tab1")
       = Some "Tab1"
    /\ Dashboards cfg_Config !! "My Dash" = Some d
    /\ In tab (Dashboard_DashboardTab d)
    /\ Tab_Name tab = "Tab1"
    /\ Tab_TestGroupName tab = "group-1".
Proof.
  apply (findDashboardTab_sound (Some Fixture.snapshot) "My Dash" "Tab1").
  reflexivity.
Defined.

(** X7 on a store whose download fails while handing over a grid. *)
Lemma GroupGrid_error_witness :
  GroupGrid
    (Fixture.server ""
       (Fixture.always (Some Fixture.alignedGrid, Some (External "timeout"))))
    "gs://bucket" "group-1"
  = (None, Some (Load (External "timeout")))
  /\ exists (path : gcsPath) (dropped : option statepb_Grid) (cause : error),
       resolveTestGroupPath "gs://bucket" "grid" "group-1" = inl path
       /\ Fixture.always (Some Fixture.alignedGrid, Some (External "timeout"))
            tt path = (dropped, Some cause)
       /\ Load (External "timeout") = Load cause.
Proof.
  split; [reflexivity|].
  destruct (GroupGrid_error
              (Fixture.server ""
                 (Fixture.always
                    (Some Fixture.alignedGrid, Some (External "timeout"))))
              "gs://bucket" "group-1" None (Load (External "timeout")) eq_refl)
    as [_ [(cause & _ & Hwrap)|Hload]].
  - discriminate Hwrap.
  - exact Hload.
Defined.

(** X8 on a server without a base location. *)
Lemma Grid_tab_mode_errors_witness :
  Grid Fixture.lostServer "bucket" "My Dash" "Tab1" "group-1"
  = (None, Some (External "no default config path")).
Proof.
  apply (Grid_tab_mode_errors Fixture.lostServer "bucket" "My Dash" "Tab1"
           "group-1").
  reflexivity.
Defined.

(** X10 on a server whose configuration cannot be loaded. *)
Lemma getConfig_error_answers_witness :
  ListHeadersHTTP
    (Fixture.serverWith (None, Some (External "config: unavailable")) ""
       (Fixture.always (Some Fixture.alignedGrid, None)))
    "bucket" "My Dash" "Tab1"
  = Ret (httpError (External "config: unavailable") StatusNotFound).
Proof.
  pose proof (getConfig_error_answers
                (Fixture.serverWith (None, Some (External "config: unavailable"))
                   "" (Fixture.always (Some Fixture.alignedGrid, None)))
                {| Scope := "bucket"; Dashboard := "My Dash"; Tab := "Tab1" |}
                None (External "config: unavailable") eq_refl)
    as (_ & _ & H & _).
  exact H.
Defined.

(** X11 on a server without configuration and on one whose configuration is
    hollow. *)
Lemma nil_config_answers_witness :
  ListHeaders
    (Fixture.serverWith (None, None) ""
       (Fixture.always (Some Fixture.alignedGrid, None)))
    Fixture.request
  = Panic NilDereference
  /\ ListRows
       (Fixture.serverWith (Some Fixture.hollowSnapshot, None) ""
          (Fixture.always (Some Fixture.alignedGrid, None)))
       Fixture.request
     = Ret (inr EmptyConfig).
Proof.
  split.
  - pose proof (nil_config_answers
                  (Fixture.serverWith (None, None) ""
                     (Fixture.always (Some Fixture.alignedGrid, None)))
                  Fixture.request) as (Hnil & _).
    exact (proj1 (Hnil eq_refl)).
  - pose proof (nil_config_answers
                  (Fixture.serverWith (Some Fixture.hollowSnapshot, None) ""
                     (Fixture.always (Some Fixture.alignedGrid, None)))
                  Fixture.request) as (_ & Hhollow).
    exact (proj2 (Hhollow Fixture.hollowSnapshot eq_refl eq_refl)).
Defined.

(** X12 on a dashboard that the index does not have. *)
Lemma lookup_error_answers_witness :
  ListRowsHTTP
    (Fixture.server "" (Fixture.always (Some Fixture.alignedGrid, None)))
    "bucket" "No  SUCH" "Tab1"
  = Ret (httpError (DashboardNotFound "no such") StatusNotFound).
Proof.
  pose proof (lookup_error_answers
                (Fixture.server ""
                   (Fixture.always (Some Fixture.alignedGrid, None)))
                "bucket" "No  SUCH" "Tab1" Fixture.snapshot "" "" ""
                (DashboardNotFound "no such") eq_refl eq_refl) as [_ H].
  exact H.
Defined.

(** X13 on two spellings of the same dashboard and tab. *)
Lemma response_normalized_witness :
  ListHeaders
    (Fixture.server "" (Fixture.always (Some Fixture.alignedGrid, None)))
    {| Scope := "bucket"; Dashboard := "My Dash"; Tab := "Tab1" |}
  = Ret (inl {| Headers :=
      [ {| Header_Name := "c1"; Header_Build := "b1";
           Header_Started := {| Seconds := 1; Nanos := 500000000 |};
           Header_Extra := []; Header_HotlistIds := "" |} ] |}).
Proof.
  pose proof (response_normalized
                (Fixture.server ""
                   (Fixture.always (Some Fixture.alignedGrid, None)))
                Fixture.request
                {| Scope := "bucket"; Dashboard := "My Dash"; Tab := "Tab1" |}
                eq_refl eq_refl eq_refl) as [Hheaders _].
  apply Hheaders. vm_compute. reflexivity.
Defined.

(** X14 on a row with a single encoded number and one cell id. *)
Lemma ListRows_row_odd_results_witness :
  ListRows_row
    {| Row_Name := "test-d"; Row_Results := [1];
       Row_CellIds := ["a"]; Row_Messages := ["m1"];
       Row_Icons := ["i1"]; Row_Issues := []; Row_AlertInfo := None |}
  = Panic (IndexOutOfRange 0 0).
Proof.
  apply (ListRows_row_odd_results
           {| Row_Name := "test-d"; Row_Results := [1];
              Row_CellIds := ["a"]; Row_Messages := ["m1"];
              Row_Icons := ["i1"]; Row_Issues := []; Row_AlertInfo := None |}).
  - vm_compute. discriminate.
  - discriminate.
Defined.

(** X15 on a grid whose second row has one decoded result for two cell
    ids. *)
Lemma ListRows_first_short_row_witness :
  ListRows
    (Fixture.server "" (Fixture.always (Some Fixture.shortResultsGrid, None)))
    Fixture.request
  = Panic (IndexOutOfRange 1 1).
Proof.
  apply (ListRows_first_short_row
           (Fixture.server ""
              (Fixture.always (Some Fixture.shortResultsGrid, None)))
           Fixture.request "My Dash" "Tab1" "group-1" Fixture.shortResultsGrid
           [Fixture.alignedRow] [] Fixture.shortResultsRow
           (Fixture_resolves _ _) eq_refl eq_refl).
  - constructor; [|constructor]. repeat split; vm_compute; lia.
  - intros (H & _). vm_compute in H. lia.
Defined.

(** X16 on a column started 1500 ms before the epoch. *)
Lemma ListHeaders_started_instant_witness :
  Seconds (Header_Started (ListHeaders_header Fixture.columnBeforeEpoch))
    * 1000000000
  + Nanos (Header_Started (ListHeaders_header Fixture.columnBeforeEpoch))
  = -1500 * 1000000.
Proof.
  apply (ListHeaders_started_instant Fixture.columnBeforeEpoch (-1500) eq_refl).
  vm_compute. split; reflexivity.
Defined.

(** X17 on the grid whose row has three decoded results for one cell id. *)
Lemma ListRows_response_complete_witness :
  ResponseRows
    {| ResponseRows :=
         [ {| ResponseRow_Name := "test-b";
              ResponseRow_Issues := [];
              ResponseRow_Alert := None;
              ResponseRow_Cells :=
                [ {| Cell_Result := 1; Cell_CellId := "a";
                     Cell_Message := "m1"; Cell_Icon := "i1" |} ] |} ] |}
  = map rowRecord (Rows Fixture.longResultsGrid).
Proof.
  apply (ListRows_response_complete
           (Fixture.server ""
              (Fixture.always (Some Fixture.longResultsGrid, None)))
           Fixture.request "My Dash" "Tab1" "group-1" Fixture.longResultsGrid
           _ (Fixture_resolves _ _) eq_refl).
  vm_compute. reflexivity.
Defined.
